(** * Legal-Expert: the two-node interview workflow of [tool.py]

    A shallow embedding of [src/tool.py]: the conversation state with its
    concatenating reducer, the two nodes [start_node] and [report_node], the
    linear graph built at module level ([workflow], [legal_agent]) and the
    entry point [run_agent].

    The language model behind [question_generator] and [report_generator]
    is an external service.  It is a parameter of the development: a
    function of the prompt and of the state of the outside world, which
    either fails or returns a value of the requested schema.  Every call
    to it, and every node the graph runs, is recorded in a trace, so that
    what an invocation did can be stated and proved.

    Python strings are modelled by [string]; the module only builds them by
    concatenation and tests them for emptiness.

    The second half of the file embeds the callers of [run_agent]: the
    request models and the two consultation endpoints of [src/api.py], and
    the text the chat front end of [src/app.py] builds from the messages
    [run_agent] returns. *)

From stdpp Require Import base list strings pretty.
From Stdlib Require Import ZArith Lia Ascii.

Open Scope string_scope.
Open Scope list_scope.

(** ** Messages and state ([tool.py], lines 17-29) *)

(** [BaseMessage]: the [type] tag and the text [content]. *)
Record BaseMessage := mkMessage { type : string; content : string }.

(** [HumanMessage(content=c)]: its [type] is the string [human]. *)
Definition HumanMessage (c : string) : BaseMessage :=
  {| type := "human"; content := c |}.

(** [InterviewState]: [messages] carries the reducer [lambda x, y: x + y],
    [turn] is a plain integer. *)
Record InterviewState := mkState { messages : list BaseMessage; turn : Z }.

(** The reducer annotated on [messages]. *)
Definition reducer (x y : list BaseMessage) : list BaseMessage := x ++ y.

(** What a node returns: a dict holding some of the keys of the state. *)
Record StateUpdate := mkUpdate {
  upd_messages : option (list BaseMessage);
  upd_turn : option Z
}.

(** How the graph writes a node's return value into the state: a key with
    a reducer is combined with the old value, a key without one is
    overwritten, an absent key is left alone. *)
Definition apply_update (st : InterviewState) (u : StateUpdate) : InterviewState :=
  {| messages := match upd_messages u with
                 | Some y => reducer (messages st) y
                 | None => messages st
                 end;
     turn := match upd_turn u with
             | Some t => t
             | None => turn st
             end |}.

(** The two structured-output schemas. *)
Record QueryDetails := mkQueryDetails { probing_questions : list string }.
Record Report := mkReport { report_text : string }.

(** ** Module start ([tool.py], lines 9-15) *)

(** The exceptions the module can raise.  [GenerationError] wraps whatever
    the generation client raised, of a type [E] of its own. *)
Inductive Exception (E : Type) : Type :=
  | ValueError (msg : string)
  | IndexError
  | GraphRecursionError
  | GenerationError (e : E).
Arguments ValueError {E} msg.
Arguments IndexError {E}.
Arguments GraphRecursionError {E}.
Arguments GenerationError {E} e.

(** The process environment after [load_dotenv()], as [os.getenv] reads it. *)
Definition Environ := list (string * string).

Fixpoint getenv (env : Environ) (name : string) : option string :=
  match env with
  | [] => None
  | (k, v) :: rest => if String.eqb k name then Some v else getenv rest name
  end.

(** What importing the module leaves behind: the key the client is built
    with. *)
Record ToolModule := mkModule { api_key : string }.

(** Lines 11-13: [if not api_key: raise ValueError(...)].  [not api_key] is
    true for [None] and for the empty string. *)
Definition import_tool {E} (env : Environ) : Exception E + ToolModule :=
  match getenv env "GOOGLE_API_KEY" with
  | None => inl (ValueError "GOOGLE_API_KEY environment variable not set.")
  | Some "" => inl (ValueError "GOOGLE_API_KEY environment variable not set.")
  | Some k => inr {| api_key := k |}
  end.

(** ** Text helpers *)

(** The double-quote character, as a one-character string. *)
Definition dquote : string := String (Ascii.ascii_of_nat 34) EmptyString.

(** The line feed, as a one-character string. *)
Definition newline : string := String (Ascii.ascii_of_nat 10) EmptyString.

(** [sep.join(parts)]. *)
Fixpoint join (sep : string) (parts : list string) : string :=
  match parts with
  | [] => ""
  | [p] => p
  | p :: rest => p +:+ sep +:+ join sep rest
  end.

(** The prompt of [start_node] (lines 37-49), line by line: the f-string
    opens with a line feed and closes after four spaces of indentation. *)
Definition start_prompt (initial_query : string) : string :=
  join newline [
    "";
    "    You are an expert legal consultant AI specializing in the **Indian legal framework**. ";
    "    A user has a query regarding a legal matter in India. Your task is to generate 3-4 highly specific, probing questions to gather the necessary details. ";
    "    These questions must be framed to elicit information relevant to Indian laws, such as:";
    "    - The specific state or territory in India where the issue occurred (as laws can vary).";
    "    - The nature of the parties involved (e.g., individuals, companies, government bodies).";
    "    - Key dates and a timeline of events.";
    "    - The existence of any written agreements, contracts, or official documents.";
    "";
    "    User's query: " +:+ dquote +:+ initial_query +:+ dquote;
    "";
    "    Generate questions that will help you provide a detailed analysis based on relevant Indian Acts (e.g., Indian Penal Code, Contract Act, 1872, Information Technology Act, 2000, etc.).";
    "    "
  ].

(** The prompt of [report_node] (lines 60-76). *)
Definition report_prompt (conversation_history : string) : string :=
  join newline [
    "";
    "    You are a Legal Expert AI specializing in **Indian Law**. You have gathered information from a user.";
    "    Your task is to generate a comprehensive, well-documented report based on the entire conversation. The report must be structured with the following sections:";
    "    ";
    "    1.  **Summary of Facts:** Briefly outline the user's situation based on the information provided.";
    "    2.  **Applicable Indian Legal Provisions:** Identify and cite relevant Acts and sections of Indian law (e.g., Section 420 of the Indian Penal Code, 1860; Section 17 of the Indian Contract Act, 1872).";
    "    3.  **Legal Analysis:** Analyze the situation in the context of the identified laws. Explain how the law applies to the user's facts and discuss potential legal arguments.";
    "    4.  **Preliminary Opinion & Next Steps:** Provide a preliminary opinion on the matter. Suggest practical next steps the user could consider, such as mediation, sending a legal notice, or consulting with a lawyer registered with the Bar Council of India.";
    "    5.  **Disclaimer:** Conclude with a clear disclaimer that this report is for informational purposes only and does not constitute legal advice from a licensed advocate.";
    "";
    "    Conversation History:";
    "    ---";
    "    " +:+ conversation_history;
    "    ---";
    "";
    "    Generate the final, structured report.";
    "    "
  ].

(** The content of the instruction message (line 53). *)
Definition instruction_text : string :=
  "Please answer the questions above to the best of your ability. I will generate a report once I have your answers.".

(** [f"Question {i+1}: {q}"] (line 52). *)
Definition question_text (i : nat) (q : string) : string :=
  "Question " +:+ pretty (i + 1) +:+ ": " +:+ q.

(** The list comprehension of line 52 over [enumerate(probing_questions)]. *)
Definition question_messages (qs : list string) : list BaseMessage :=
  imap (fun i q => HumanMessage (question_text i q)) qs.

(** [f"{msg.type}: {msg.content}"] (line 58). *)
Definition transcript_line (msg : BaseMessage) : string :=
  type msg +:+ ": " +:+ content msg.

(** The value of [conversation_history] (line 58) for a message list. *)
Definition conversation_history (msgs : list BaseMessage) : string :=
  join newline (map transcript_line msgs).

(** [f"Initial Query: {initial_query}\n\nUser's Answers:\n{user_answers}"]
    (line 100). *)
Definition full_context (initial_query user_answers : string) : string :=
  "Initial Query: " +:+ initial_query +:+ newline +:+ newline
    +:+ "User's Answers:" +:+ newline +:+ user_answers.

(** ** The trace of an invocation *)

Inductive Schema := QueryDetailsSchema | ReportSchema.

Inductive Event :=
  | NodeRun (name : string)
  | GenerationCall (schema : Schema) (prompt : string).

Definition is_generation_call (e : Event) : bool :=
  match e with GenerationCall _ _ => true | NodeRun _ => false end.

(** The number of calls to the generation service in a trace. *)
Definition generation_calls (tr : list Event) : nat :=
  length (List.filter is_generation_call tr).

(** The nodes a trace ran, in order. *)
Fixpoint nodes_run (tr : list Event) : list string :=
  match tr with
  | [] => []
  | NodeRun name :: rest => name :: nodes_run rest
  | GenerationCall _ _ :: rest => nodes_run rest
  end.

(** ** The workflow, over an arbitrary generation service *)

Section Workflow.

(** [World] is the state of everything outside the process, [GenErr] what
    the generation client can raise. *)
Context {World GenErr : Type}.

(** [llm.with_structured_output(QueryDetails).invoke] and
    [llm.with_structured_output(Report).invoke] (lines 31-32). *)
Variable question_generator : string -> World -> (GenErr + QueryDetails) * World.
Variable report_generator : string -> World -> (GenErr + Report) * World.

Record Env := mkEnv { world : World; trace : list Event }.

(** Computations that read and change the outside world, extend the
    trace, and either raise or return. *)
Definition M (A : Type) : Type := Env -> (Exception GenErr + A) * Env.

Definition ret {A} (a : A) : M A := fun s => (inr a, s).

Definition raise {A} (e : Exception GenErr) : M A := fun s => (inl e, s).

Definition bind {A B} (c : M A) (k : A -> M B) : M B :=
  fun s => match c s with
           | (inr a, s') => k a s'
           | (inl e, s') => (inl e, s')
           end.

Definition log (ev : Event) : M unit :=
  fun s => (inr tt, {| world := world s; trace := trace s ++ [ev] |}).

Notation "'let*' x ':=' c 'in' k" := (bind c (fun x => k))
  (at level 10, x pattern, c at level 100, k at level 200).

(** One call of a generator: logged, run against the world, and an error
    of the client raised as it is. *)
Definition question_generator_invoke (prompt : string) : M QueryDetails :=
  let* _ := log (GenerationCall QueryDetailsSchema prompt) in
  fun s => match question_generator prompt (world s) with
           | (inr qd, w) => (inr qd, {| world := w; trace := trace s |})
           | (inl e, w) => (inl (GenerationError e), {| world := w; trace := trace s |})
           end.

Definition report_generator_invoke (prompt : string) : M Report :=
  let* _ := log (GenerationCall ReportSchema prompt) in
  fun s => match report_generator prompt (world s) with
           | (inr r, w) => (inr r, {| world := w; trace := trace s |})
           | (inl e, w) => (inl (GenerationError e), {| world := w; trace := trace s |})
           end.

(** *** The nodes (lines 34-81) *)

Definition start_node (state : InterviewState) : M StateUpdate :=
  match last (messages state) with
  | None => raise IndexError
  | Some m =>
    let initial_query := content m in
    let prompt := start_prompt initial_query in
    let* questions_structured := question_generator_invoke prompt in
    let question_messages :=
      question_messages (probing_questions questions_structured) in
    let system_message := HumanMessage instruction_text in
    ret {| upd_messages := Some (question_messages ++ [system_message]);
           upd_turn := Some 1%Z |}
  end.

Definition report_node (state : InterviewState) : M StateUpdate :=
  let conversation_history := conversation_history (messages state) in
  let prompt := report_prompt conversation_history in
  let* report_structured := report_generator_invoke prompt in
  let report_message := HumanMessage (report_text report_structured) in
  ret {| upd_messages := Some [report_message]; upd_turn := None |}.

(** *** The graph (lines 84-92) *)

Definition Node := InterviewState -> M StateUpdate.

Record StateGraph := mkGraph {
  nodes : list (string * Node);
  entry_point : option string;
  edges : list (string * string)
}.

Definition END : string := "__end__".

Definition StateGraph_new : StateGraph :=
  {| nodes := []; entry_point := None; edges := [] |}.

Definition add_node (name : string) (f : Node) (g : StateGraph) : StateGraph :=
  {| nodes := nodes g ++ [(name, f)];
     entry_point := entry_point g;
     edges := edges g |}.

Definition set_entry_point (name : string) (g : StateGraph) : StateGraph :=
  {| nodes := nodes g; entry_point := Some name; edges := edges g |}.

Definition add_edge (src dst : string) (g : StateGraph) : StateGraph :=
  {| nodes := nodes g; entry_point := entry_point g;
     edges := edges g ++ [(src, dst)] |}.

Fixpoint assoc {A} (name : string) (l : list (string * A)) : option A :=
  match l with
  | [] => None
  | (k, v) :: rest => if String.eqb k name then Some v else assoc name rest
  end.

(** The number of steps after which a run is abandoned with
    [GraphRecursionError] (the library's default). *)
Definition recursion_limit : nat := 25.

(** A run from node [current]: the node is called on the state, what it
    returns is written into the state through the reducers, and the run
    goes on along the node's outgoing edge until it reaches [END].  An
    edge added with [add_edge] is unconditional: it is followed whatever
    the state holds.  The graphs of this module are linear; a node
    without an outgoing edge ends the run. *)
Fixpoint run_from (g : StateGraph) (fuel : nat) (current : string)
    (st : InterviewState) : M InterviewState :=
  if String.eqb current END then ret st else
  match fuel with
  | O => raise GraphRecursionError
  | S fuel' =>
    match assoc current (nodes g) with
    | None => raise (ValueError ("Unknown node " +:+ current))
    | Some f =>
      let* _ := log (NodeRun current) in
      let* u := f st in
      let st' := apply_update st u in
      match assoc current (edges g) with
      | Some next => run_from g fuel' next st'
      | None => ret st'
      end
    end
  end.

(** [graph.invoke(inputs)]: the input is written into the empty state
    through the same reducers (the [messages] channel starts as the empty
    list), the run starts at the entry point, and the final state is
    returned. *)
Definition invoke (g : StateGraph) (inputs : InterviewState) : M InterviewState :=
  match entry_point g with
  | None => raise (ValueError "Graph must have an entrypoint")
  | Some entry =>
    let st0 := {| messages := reducer [] (messages inputs);
                  turn := turn inputs |} in
    run_from g recursion_limit entry st0
  end.

Definition workflow : StateGraph :=
  let g := StateGraph_new in
  let g := add_node "start_interview" start_node g in
  let g := add_node "generate_report" report_node g in
  let g := set_entry_point "start_interview" g in
  let g := add_edge "start_interview" "generate_report" g in
  let g := add_edge "generate_report" END g in
  g.

(** [workflow.compile()]: the compiled graph has the nodes, the entry point
    and the edges of the builder. *)
Definition compile (g : StateGraph) : StateGraph := g.

Definition legal_agent : StateGraph := compile workflow.

(** *** The entry point (lines 94-103) *)

(** The final state of the invocation [run_agent] makes. *)
Definition run_agent_state (initial_query user_answers : string) : M InterviewState :=
  if String.eqb user_answers "" then
    let inputs := {| messages := [HumanMessage initial_query]; turn := 0 |} in
    invoke legal_agent inputs
  else
    let full := full_context initial_query user_answers in
    let inputs := {| messages := [HumanMessage full]; turn := 2 |} in
    invoke legal_agent inputs.

Definition run_agent (initial_query user_answers : string) : M (list BaseMessage) :=
  if String.eqb user_answers "" then
    let inputs := {| messages := [HumanMessage initial_query]; turn := 0 |} in
    let* result := invoke legal_agent inputs in
    ret (messages result)
  else
    let full := full_context initial_query user_answers in
    let inputs := {| messages := [HumanMessage full]; turn := 2 |} in
    let* result := invoke legal_agent inputs in
    ret (messages result).

(** The [inputs] dict of the branch [run_agent] takes. *)
Definition run_agent_inputs (initial_query user_answers : string) : InterviewState :=
  if String.eqb user_answers "" then
    {| messages := [HumanMessage initial_query]; turn := 0 |}
  else
    {| messages := [HumanMessage (full_context initial_query user_answers)];
       turn := 2 |}.

End Workflow.

Arguments start_prompt : simpl never.
Arguments report_prompt : simpl never.
Arguments conversation_history : simpl never.
Arguments question_messages : simpl never.
Arguments full_context : simpl never.

(** ** Names for what an invocation produces *)

(** The content of the single message [run_agent] feeds in. *)
Definition input_content (initial_query user_answers : string) : string :=
  if String.eqb user_answers "" then initial_query
  else full_context initial_query user_answers.

(** The messages [start_node] returns for a reply of the client. *)
Definition clarify_messages (qd : QueryDetails) : list BaseMessage :=
  question_messages (probing_questions qd) ++ [HumanMessage instruction_text].

(** The events of a run that stops at the first call. *)
Definition clarify_trace (c : string) : list Event :=
  [ NodeRun "start_interview";
    GenerationCall QueryDetailsSchema (start_prompt c) ].

(** The events of a run in which both calls are made. *)
Definition full_trace (input : list BaseMessage) (c : string) (qd : QueryDetails)
    : list Event :=
  clarify_trace c ++
  [ NodeRun "generate_report";
    GenerationCall ReportSchema
      (report_prompt (conversation_history (input ++ clarify_messages qd))) ].

(** ** A concrete generation service, for evaluation *)

Module Demo.

Definition query : string :=
  "My landlord is evicting me without notice in Mumbai".

Definition answers : string :=
  "Maharashtra; individual landlord; eviction notice given verbally on 2024-01-10; no written lease".

Definition questions : QueryDetails :=
  {| probing_questions :=
       [ "In which state of India is the property?";
         "Is the landlord an individual or a company?";
         "When was the eviction notice given?" ] |}.

Definition report : Report :=
  {| report_text := "1. Summary of Facts ... 5. Disclaimer" |}.

(** A service that always answers; the world counts the calls made. *)
Definition question_generator (prompt : string) (w : nat)
    : (string + QueryDetails) * nat := (inr questions, S w).

Definition report_generator (prompt : string) (w : nat)
    : (string + Report) * nat := (inr report, S w).


(** Services that fail. *)
Definition failing_question_generator (prompt : string) (w : nat)
    : (string + QueryDetails) * nat := (inl "503 Service Unavailable", S w).

Definition failing_report_generator (prompt : string) (w : nat)
    : (string + Report) * nat := (inl "deadline exceeded", S w).

Definition env0 : Env := {| world := 0; trace := [] |}.


(** The history [report_node] reads on the call with [answers]. *)
Definition report_history : list BaseMessage :=
  [ HumanMessage (full_context query answers);
    HumanMessage "Question 1: In which state of India is the property?";
    HumanMessage "Question 2: Is the landlord an individual or a company?";
    HumanMessage "Question 3: When was the eviction notice given?";
    HumanMessage instruction_text ].

End Demo.

(** ** Python string operations used by the callers ([api.py], [app.py]) *)

(** A [string] is read as a sequence of characters with code points below
    256, one [ascii] each. *)

(** [len(s)]. *)
Definition len (s : string) : Z := Z.of_nat (String.length s).

(** [c.isspace()] for a character below 256: the controls 9-13 and 28-31,
    the space, NEL (133) and the no-break space (160). *)
Definition py_isspace (c : Ascii.ascii) : bool :=
  let n := Ascii.nat_of_ascii c in
  (((9 <=? n) && (n <=? 13)) || ((28 <=? n) && (n <=? 32))
   || (n =? 133) || (n =? 160))%nat.

(** [s.lstrip()], [s.rstrip()] and [s.strip()]. *)
Fixpoint lstrip (s : string) : string :=
  match s with
  | "" => ""
  | String c s' => if py_isspace c then lstrip s' else s
  end.

Fixpoint rstrip (s : string) : string :=
  match s with
  | "" => ""
  | String c s' =>
    match rstrip s' with
    | "" => if py_isspace c then "" else String c ""
    | t => String c t
    end
  end.

Definition strip (s : string) : string := rstrip (lstrip s).

(** [s[n:]]. *)
Fixpoint string_drop (n : nat) (s : string) : string :=
  match n, s with
  | O, _ => s
  | S n', String _ s' => string_drop n' s'
  | S _, "" => ""
  end.

(** [sub in s]. *)
Fixpoint contains (sub s : string) : bool :=
  String.prefix sub s ||
  match s with
  | "" => false
  | String _ s' => contains sub s'
  end.

(** [s.split(sep, 1)[1]] when [sep in s]: the text after the first
    occurrence of [sep]; [None] when [sep] does not occur. *)
Fixpoint after_first (sep s : string) : option string :=
  if String.prefix sep s then Some (string_drop (String.length sep) s)
  else match s with
       | "" => None
       | String _ s' => after_first sep s'
       end.

(** [s.replace(old, '')]: every occurrence of [old] is removed, scanning
    from the left; an empty [old] changes nothing.  [skip] counts the
    characters of a match still to be dropped. *)
Fixpoint remove_go (old : string) (skip : nat) (s : string) : string :=
  match s with
  | "" => ""
  | String c s' =>
    match skip with
    | S k => remove_go old k s'
    | O => if String.prefix old s
           then remove_go old (String.length old - 1) s'
           else String c (remove_go old 0 s')
    end
  end.

Definition remove_all (old s : string) : string :=
  if String.eqb old "" then s else remove_go old 0 s.


(** A string is trimmed on the left when it is empty or starts with a
    character that is not a space. *)
Definition starts_clean (s : string) : Prop :=
  match s with
  | "" => True
  | String c _ => py_isspace c = false
  end.

(** A string without a colon. *)
Fixpoint no_colon (s : string) : Prop :=
  match s with
  | "" => True
  | String c s' => c <> ":"%char /\ no_colon s'
  end.

(** ** The HTTP layer ([api.py]) *)

(** Logging, the background task that logs, the middleware and the
    endpoints that return constants are left out: they do not change what
    the two consultation endpoints return. *)

Module Api.

(** What pydantic reports for a rejected field. *)
Inductive FieldError :=
  | StringTooShort
  | StringTooLong
  | ValidatorError (msg : string).

(** [Field(..., min_length=lo, max_length=hi)] on a [str]. *)
Definition constrained (lo hi : Z) (v : string) : FieldError + string :=
  if (len v <? lo)%Z then inl StringTooShort
  else if (hi <? len v)%Z then inl StringTooLong
  else inr v.

(** [LegalQuery.validate_query] (lines 27-31). *)
Definition validate_query (v : string) : FieldError + string :=
  if String.eqb (strip v) "" then
    inl (ValidatorError "Query cannot be empty or just whitespace")
  else inr (strip v).

(** [UserAnswers.validate_fields] (lines 37-41). *)
Definition validate_fields (v : string) : FieldError + string :=
  if String.eqb (strip v) "" then
    inl (ValidatorError "Field cannot be empty or just whitespace")
  else inr (strip v).

(** A field: its constraints are checked on the submitted value, and the
    validator of the class runs on a value that passed them. *)
Definition field (lo hi : Z) (validator : string -> FieldError + string)
    (v : string) : FieldError + string :=
  match constrained lo hi v with
  | inl e => inl e
  | inr v' => validator v'
  end.

Record LegalQuery := mkLegalQuery { query : string }.

Record UserAnswers := mkUserAnswers { initial_query : string; answers : string }.

(** Building the models from the submitted values (lines 24-41).  The
    errors of all fields are reported together. *)
Definition make_LegalQuery (raw : string) : list FieldError + LegalQuery :=
  match field 10 5000 validate_query raw with
  | inl e => inl [e]
  | inr q => inr {| query := q |}
  end.

Definition make_UserAnswers (raw_query raw_answers : string)
    : list FieldError + UserAnswers :=
  match field 10 5000 validate_fields raw_query,
        field 10 10000 validate_fields raw_answers with
  | inr q, inr a => inr {| initial_query := q; answers := a |}
  | inl e, inr _ => inl [e]
  | inr _, inl e => inl [e]
  | inl e1, inl e2 => inl [e1; e2]
  end.

(** [validate_environment] (lines 62-71): the missing variables, raised in
    a [RuntimeError] when there are any.  [not os.getenv(var)] holds for an
    unset and for an empty variable. *)
Definition required_vars : list string := ["GOOGLE_API_KEY"].

Definition is_missing (env : Environ) (var : string) : bool :=
  match getenv env var with
  | None => true
  | Some v => String.eqb v ""
  end.

Definition validate_environment (env : Environ) : list string + unit :=
  let missing_vars := List.filter (is_missing env) required_vars in
  match missing_vars with
  | [] => inr tt
  | _ => inl missing_vars
  end.

Record HTTPException := mkHTTPException { status_code : Z; detail : string }.

Record QuestionResponse := mkQuestionResponse {
  questions : list string;
  message : string
}.

Record ReportResponse := mkReportResponse { report : string; timestamp : string }.

(** One round of the loop of lines 191-198, on the pair of [questions] and
    [instructions]. *)
Definition extract_step (acc : list string * string) (msg : BaseMessage)
    : list string * string :=
  let '(questions, instructions) := acc in
  let content := content msg in
  if String.prefix "Question" content then
    let question_text :=
      match after_first ": " content with
      | Some t => t
      | None => content
      end in
    (questions ++ [question_text], instructions)
  else if contains "Please answer the questions" content then
    (questions, content)
  else (questions, instructions).

(** The loop of lines 235-238: the content of the first message that is
    non-empty and longer than 100 characters, the empty string when there
    is none. *)
Fixpoint first_long (messages : list BaseMessage) : string :=
  match messages with
  | [] => ""
  | msg :: rest =>
    if negb (String.eqb (content msg) "") && (100 <? len (content msg))%Z
    then content msg
    else first_long rest
  end.

Section Endpoints.

Context {World GenErr : Type}.
Variable question_generator : string -> World -> (GenErr + QueryDetails) * World.
Variable report_generator : string -> World -> (GenErr + Report) * World.

(** [str(e)] for what [run_agent] raises and for an [HTTPException], and
    [datetime.now().isoformat()]: given from outside. *)
Variable str_exception : Exception GenErr -> string.
Variable str_http : HTTPException -> string.
Variable now_isoformat : World -> string.

(** An endpoint either raises an [HTTPException] or returns its response. *)
Definition Endpoint (A : Type) : Type := @Env World -> (HTTPException + A) * @Env World.

(** [ask_legal_question] (lines 173-216).  Everything raised inside the
    [try], the [HTTPException] of line 201 included, is caught by
    [except Exception] and raised again as a 500. *)
Definition ask_legal_question (q : LegalQuery) : Endpoint QuestionResponse :=
  fun s =>
    match run_agent question_generator report_generator (query q) "" s with
    | (inl e, s') =>
        (inl {| status_code := 500;
                detail := "Failed to process legal query: " +:+ str_exception e |}, s')
    | (inr messages, s') =>
        let '(questions, instructions) := fold_left extract_step messages ([], "") in
        match questions with
        | [] =>
            let e := {| status_code := 500; detail := "Failed to generate questions" |} in
            (inl {| status_code := 500;
                    detail := "Failed to process legal query: " +:+ str_http e |}, s')
        | _ =>
            (inr {| questions := questions;
                    message :=
                      if String.eqb instructions "" then
                        "Please answer the questions above to the best of your ability. I will generate a report once I have your answers."
                      else instructions |}, s')
        end
    end.

(** [generate_legal_report] (lines 219-257). *)
Definition generate_legal_report (a : UserAnswers) : Endpoint ReportResponse :=
  fun s =>
    match run_agent question_generator report_generator
            (initial_query a) (answers a) s with
    | (inl e, s') =>
        (inl {| status_code := 500;
                detail := "Failed to generate legal report: " +:+ str_exception e |}, s')
    | (inr messages, s') =>
        let report_content := first_long messages in
        if String.eqb report_content "" then
          let e := {| status_code := 500; detail := "Failed to generate report" |} in
          (inl {| status_code := 500;
                  detail := "Failed to generate legal report: " +:+ str_http e |}, s')
        else
          (inr {| report := report_content;
                  timestamp := now_isoformat (world s') |}, s')
    end.

End Endpoints.

End Api.

(** ** The chat front end ([app.py]) *)

Module App.

(** The chain of [replace] calls of line 114. *)
Definition strip_labels (content : string) : string :=
  remove_all "Question 4: "
    (remove_all "Question 3: "
       (remove_all "Question 2: "
          (remove_all "Question 1: " content))).

(** The loop of lines 111-114: the text shown after the first call. *)
Definition render_step (full_response : string) (msg : BaseMessage) : string :=
  if contains "Please answer the questions" (content msg) then full_response
  else full_response +:+ "- " +:+ strip_labels (content msg) +:+ newline.

Definition render_questions (response_messages : list BaseMessage) : string :=
  fold_left render_step response_messages "".

(** [report_messages[-1].content] (line 136); indexing an empty list raises
    [IndexError]. *)
Definition final_report {E} (report_messages : list BaseMessage)
    : Exception E + string :=
  match last report_messages with
  | None => inl IndexError
  | Some m => inr (content m)
  end.

End App.

(** A text in which none of the four labels [strip_labels] removes occurs. *)
Definition label_free (x : string) : Prop :=
  contains "Question 1: " x = false /\ contains "Question 2: " x = false
  /\ contains "Question 3: " x = false /\ contains "Question 4: " x = false.

(** The line the chat front end adds for one message (line 114). *)
Definition bullet (text : string) : string := "- " +:+ text +:+ newline.

(** The strings of a list, one after the other. *)
Fixpoint concat_strings (l : list string) : string :=
  match l with
  | [] => ""
  | x :: l' => x +:+ concat_strings l'
  end.

(** A string in which the character [c] does not occur. *)
Fixpoint lacks (c : ascii) (s : string) : Prop :=
  match s with
  | "" => True
  | String d s' => d <> c /\ lacks c s'
  end.

(** ** Concrete callers, for evaluation *)

Module DemoCallers.

(** A query that itself starts with the word the endpoint looks for. *)
Definition labelled_query : string :=
  "Question about my lease: can my landlord evict me without notice?".

(** A service that returns no question at all. *)
Definition empty_question_generator (prompt : string) (w : nat)
    : (string + QueryDetails) * nat :=
  (inr {| probing_questions := [] |}, S w).

Definition str_exception (e : Exception string) : string :=
  match e with
  | ValueError msg => msg
  | IndexError => "list index out of range"
  | GraphRecursionError => "Recursion limit of 25 reached"
  | GenerationError msg => msg
  end.

Definition str_http (e : Api.HTTPException) : string :=
  pretty (Api.status_code e) +:+ ": " +:+ Api.detail e.

Definition now_isoformat (w : nat) : string := "2024-01-10T12:00:00".

Definition legal_query : Api.LegalQuery := {| Api.query := Demo.query |}.

Definition user_answers : Api.UserAnswers :=
  {| Api.initial_query := Demo.query; Api.answers := Demo.answers |}.

End DemoCallers.

(** ** What one invocation of the compiled graph does *)

Section WorkflowFacts.

Context {World GenErr : Type}.
Variable question_generator : string -> World -> (GenErr + QueryDetails) * World.
Variable report_generator : string -> World -> (GenErr + Report) * World.

Abbreviation agent := (legal_agent question_generator report_generator).
Abbreviation run := (run_agent question_generator report_generator).
Abbreviation run_state := (run_agent_state question_generator report_generator).

(** The entry point is [start_interview] and its edge leads to
    [generate_report], whose edge leads to [END]: an invocation is
    [start_node] followed by [report_node] on the updated state. *)
Lemma invoke_legal_agent (inputs : InterviewState) :
  invoke agent inputs =
  let st0 := {| messages := messages inputs; turn := turn inputs |} in
  bind (log (NodeRun "start_interview")) (fun _ =>
  bind (start_node question_generator st0) (fun u =>
  let st1 := apply_update st0 u in
  bind (log (NodeRun "generate_report")) (fun _ =>
  bind (report_node report_generator st1) (fun u' =>
  ret (apply_update st1 u'))))).
Proof. reflexivity. Qed.

(** The three ways an invocation on a non-empty history can end. *)
Lemma invoke_outcome inputs m s :
  last (messages inputs) = Some m ->
  invoke agent inputs s =
  match question_generator (start_prompt (content m)) (world s) with
  | (inl e, w1) =>
      (inl (GenerationError e),
       {| world := w1; trace := trace s ++ clarify_trace (content m) |})
  | (inr qd, w1) =>
      let hist := messages inputs ++ clarify_messages qd in
      let tr := trace s ++ full_trace (messages inputs) (content m) qd in
      match report_generator (report_prompt (conversation_history hist)) w1 with
      | (inl e, w2) => (inl (GenerationError e), {| world := w2; trace := tr |})
      | (inr r, w2) =>
          (inr {| messages := hist ++ [HumanMessage (report_text r)]; turn := 1 |},
           {| world := w2; trace := tr |})
      end
  end.
Proof.
  intros Hlast. rewrite invoke_legal_agent.
  unfold bind, log, start_node, report_node, question_generator_invoke,
    report_generator_invoke, bind, log, ret; cbn.
  rewrite Hlast; cbn.
  destruct (question_generator _ _) as [[e|qd] w1]; cbn.
  - unfold clarify_trace. rewrite <- !app_assoc. reflexivity.
  - unfold clarify_messages, full_trace, clarify_trace, reducer.
    destruct (report_generator _ _) as [[e|r] w2]; cbn;
      unfold apply_update, reducer; cbn; rewrite <- !app_assoc; reflexivity.
Qed.

Lemma run_agent_state_eq q ua :
  run_state q ua = invoke agent (run_agent_inputs q ua).
Proof.
  unfold run_agent_state, run_agent_inputs.
  destruct (String.eqb ua ""); reflexivity.
Qed.

Lemma run_agent_eq q ua :
  run q ua = bind (run_state q ua) (fun result => ret (messages result)).
Proof.
  unfold run_agent, run_agent_state.
  destruct (String.eqb ua ""); reflexivity.
Qed.

Lemma run_agent_inputs_messages q ua :
  messages (run_agent_inputs q ua) = [HumanMessage (input_content q ua)].
Proof.
  unfold run_agent_inputs, input_content.
  destruct (String.eqb ua ""); reflexivity.
Qed.

(** The outcome of [run_agent], by the replies of the generation client. *)
Lemma run_agent_state_outcome q ua s :
  let c := input_content q ua in
  run_state q ua s =
  match question_generator (start_prompt c) (world s) with
  | (inl e, w1) =>
      (inl (GenerationError e),
       {| world := w1; trace := trace s ++ clarify_trace c |})
  | (inr qd, w1) =>
      let hist := [HumanMessage c] ++ clarify_messages qd in
      let tr := trace s ++ full_trace [HumanMessage c] c qd in
      match report_generator (report_prompt (conversation_history hist)) w1 with
      | (inl e, w2) => (inl (GenerationError e), {| world := w2; trace := tr |})
      | (inr r, w2) =>
          (inr {| messages := hist ++ [HumanMessage (report_text r)]; turn := 1 |},
           {| world := w2; trace := tr |})
      end
  end.
Proof.
  intros c. rewrite run_agent_state_eq.
  rewrite (invoke_outcome _ (HumanMessage c)).
  - rewrite run_agent_inputs_messages. reflexivity.
  - rewrite run_agent_inputs_messages. reflexivity.
Qed.

Lemma run_agent_outcome q ua s :
  let c := input_content q ua in
  run q ua s =
  match question_generator (start_prompt c) (world s) with
  | (inl e, w1) =>
      (inl (GenerationError e),
       {| world := w1; trace := trace s ++ clarify_trace c |})
  | (inr qd, w1) =>
      let hist := [HumanMessage c] ++ clarify_messages qd in
      let tr := trace s ++ full_trace [HumanMessage c] c qd in
      match report_generator (report_prompt (conversation_history hist)) w1 with
      | (inl e, w2) => (inl (GenerationError e), {| world := w2; trace := tr |})
      | (inr r, w2) =>
          (inr (hist ++ [HumanMessage (report_text r)]),
           {| world := w2; trace := tr |})
      end
  end.
Proof.
  intros c. rewrite run_agent_eq. unfold bind.
  rewrite run_agent_state_outcome. fold c.
  destruct (question_generator _ _) as [[e|qd] w1]; [reflexivity|].
  cbv zeta. destruct (report_generator _ _) as [[e|r] w2]; reflexivity.
Qed.

(** Every invocation that returns has run both nodes and made both calls,
    whichever branch of [run_agent] started it. *)
Lemma run_agent_trace q ua s msgs s' :
  run q ua s = (inr msgs, s') ->
  exists qd,
    trace s' = trace s ++
      full_trace [HumanMessage (input_content q ua)] (input_content q ua) qd.
Proof.
  intros Hrun. rewrite run_agent_outcome in Hrun. cbv zeta in Hrun.
  destruct (question_generator _ _) as [[e|qd] w1]; [discriminate|].
  destruct (report_generator _ _) as [[e|r] w2]; [discriminate|].
  exists qd. by inversion Hrun.
Qed.

Lemma full_trace_counts input c qd :
  nodes_run (full_trace input c qd) = ["start_interview"; "generate_report"]
  /\ generation_calls (full_trace input c qd) = 2.
Proof. split; reflexivity. Qed.

(** The final state of every invocation that returns has turn 1: the
    value [start_node] wrote, which [report_node] leaves alone. *)
Lemma run_agent_state_turn q ua s st s' :
  run_state q ua s = (inr st, s') -> turn st = 1%Z.
Proof.
  intros Hrun. rewrite run_agent_state_outcome in Hrun. cbv zeta in Hrun.
  destruct (question_generator _ _) as [[e|qd] w1]; [discriminate|].
  destruct (report_generator _ _) as [[e|r] w2]; [discriminate|].
  by inversion Hrun.
Qed.

(** *** The reducer only appends *)

Lemma apply_update_prefix st u :
  messages st `prefix_of` messages (apply_update st u).
Proof.
  unfold apply_update, reducer; cbn.
  destruct (upd_messages u) as [y|]; [by apply prefix_app_r | done].
Qed.

(** Whatever the nodes of a graph are, and wherever a run starts, the
    messages it started with are still there, in place, when it
    returns. *)
Lemma run_from_prefix (g : @StateGraph World GenErr) fuel :
  forall cur st s st' s',
    run_from g fuel cur st s = (inr st', s') ->
    messages st `prefix_of` messages st'.
Proof.
  induction fuel as [|fuel IH]; intros cur st s st' s' Hrun; cbn in Hrun.
  - destruct (String.eqb cur END); unfold ret, raise in Hrun;
      [by inversion Hrun | discriminate].
  - destruct (String.eqb cur END); [by inversion Hrun|].
    destruct (assoc cur (nodes g)) as [f|]; [|discriminate].
    unfold bind, log in Hrun.
    destruct (f st _) as [[e|u] s1] eqn:Hf; [discriminate|].
    pose proof (apply_update_prefix st u) as Hstep.
    destruct (assoc cur (edges g)) as [next|].
    + etrans; [exact Hstep | by eapply IH].
    + by inversion Hrun; subst.
Qed.

(** *** A call without answers *)

(** C1 (amended): on a call with empty [user_answers] in which the
    generation client answers, [run_agent] returns a sequence that starts
    with the original query message, kept at index 0; the Q question
    messages follow in order, then the instruction message at index
    Q + 1, whose content is the fixed text and begins with the phrase
    asking the user to answer.  The sequence is therefore longer than
    Q + 1. *)
Theorem run_agent_clarify_messages q s qd w1 r w2 :
  question_generator (start_prompt q) (world s) = (inr qd, w1) ->
  report_generator
    (report_prompt (conversation_history ([HumanMessage q] ++ clarify_messages qd)))
    w1 = (inr r, w2) ->
  exists rest s',
    run q "" s =
      (inr (HumanMessage q ::
            question_messages (probing_questions qd) ++
            HumanMessage instruction_text :: rest), s')
    /\ length (question_messages (probing_questions qd))
       = length (probing_questions qd)
    /\ String.prefix "Please answer the questions" instruction_text = true.
Proof.
  intros Hq Hr. pose proof (run_agent_outcome q "" s) as Hrun.
  cbv zeta in Hrun. change (input_content q "") with q in Hrun.
  rewrite Hq, Hr in Hrun.
  exists [HumanMessage (report_text r)]. eexists. split; [|split].
  - rewrite Hrun. unfold clarify_messages. cbn [app].
    rewrite <- app_assoc. reflexivity.
  - apply length_imap.
  - reflexivity.
Qed.

(** *** A call with answers *)

(** C2 (amended): on a call with non-empty [user_answers] in which the
    generation client answers, [run_agent] returns a sequence that starts
    with the combined input message and ends with one message whose
    content is the report text the client produced. *)
Theorem run_agent_report_messages q ua s qd w1 r w2 :
  ua <> "" ->
  question_generator (start_prompt (full_context q ua)) (world s) = (inr qd, w1) ->
  report_generator
    (report_prompt
       (conversation_history
          ([HumanMessage (full_context q ua)] ++ clarify_messages qd)))
    w1 = (inr r, w2) ->
  exists mid s',
    run q ua s =
      (inr (HumanMessage (full_context q ua) :: mid ++
            [HumanMessage (report_text r)]), s')
    /\ last (HumanMessage (full_context q ua) :: mid ++
             [HumanMessage (report_text r)])
       = Some (HumanMessage (report_text r)).
Proof.
  intros Hua Hq Hr. pose proof (run_agent_outcome q ua s) as Hrun.
  cbv zeta in Hrun.
  assert (input_content q ua = full_context q ua) as Hc.
  { unfold input_content. destruct (String.eqb_spec ua ""); [contradiction|done]. }
  rewrite Hc, Hq, Hr in Hrun.
  exists (clarify_messages qd). eexists. split.
  - rewrite Hrun. reflexivity.
  - rewrite app_comm_cons. apply last_snoc.
Qed.

(** *** The numbered question messages *)


(** *** The two branches of [run_agent] *)

(** The dispatch of lines 95-103: [run_agent] with [user_answers] the
    empty string invokes the graph on the single message holding
    [initial_query], with turn 0; with any other [user_answers], whitespace
    included, it invokes the same graph on the single message whose content
    is [Initial Query: {initial_query}\n\nUser's Answers:\n{user_answers}],
    with turn 2. *)
Lemma run_agent_dispatch q ua :
  (ua = "" ->
   run q ua =
     bind (invoke agent {| messages := [HumanMessage q]; turn := 0 |})
          (fun result => ret (messages result)))
  /\ (ua <> "" ->
      run q ua =
        bind (invoke agent
                {| messages :=
                     [HumanMessage
                        ("Initial Query: " +:+ q +:+ newline +:+ newline
                           +:+ "User's Answers:" +:+ newline +:+ ua)];
                   turn := 2 |})
             (fun result => ret (messages result))).
Proof.
  split; intros Hua; unfold run_agent.
  - subst ua. reflexivity.
  - destruct (String.eqb_spec ua ""); [contradiction | reflexivity].
Qed.

(** *** Failures of the generation client *)

(** C6: if a call to the generation client made during an invocation
    fails with [e] (the call for the questions, or, after it answered,
    the call for the report), [run_agent] ends with that same error and
    returns no message sequence. *)
Theorem run_agent_propagates_generation_error q ua s e :
  (exists w1,
      question_generator (start_prompt (input_content q ua)) (world s)
      = (inl e, w1))
  \/ (exists qd w1 w2,
        question_generator (start_prompt (input_content q ua)) (world s)
        = (inr qd, w1)
        /\ report_generator
             (report_prompt
                (conversation_history
                   ([HumanMessage (input_content q ua)] ++ clarify_messages qd)))
             w1 = (inl e, w2)) ->
  fst (run q ua s) = inl (GenerationError e).
Proof.
  intros Hfail. pose proof (run_agent_outcome q ua s) as Hrun.
  cbv zeta in Hrun.
  destruct Hfail as [[w1 Hq] | (qd & w1 & w2 & Hq & Hr)].
  - rewrite Hq in Hrun. rewrite Hrun. reflexivity.
  - rewrite Hq, Hr in Hrun. rewrite Hrun. reflexivity.
Qed.

(** *** The credential check *)

(** C9: with [GOOGLE_API_KEY] absent from the environment, importing the
    module raises the [ValueError] of line 13; and for a module that was
    imported, no call of [run_agent] ends with a [ValueError]. *)
Theorem missing_api_key_fails_at_import env :
  getenv env "GOOGLE_API_KEY" = None ->
  @import_tool GenErr env
    = inl (ValueError "GOOGLE_API_KEY environment variable not set.")
  /\ (forall env' m q ua s msg,
        @import_tool GenErr env' = inr m ->
        fst (run q ua s) <> inl (ValueError msg)).
Proof.
  intros Hnone. split.
  - unfold import_tool. rewrite Hnone. reflexivity.
  - intros env' m q ua s msg _. rewrite run_agent_outcome. cbv zeta.
    destruct (question_generator _ _) as [[e|qd] w1]; [discriminate|].
    destruct (report_generator _ _) as [[e|r] w2]; discriminate.
Qed.

(** *** Append-only messages *)

(** C10: writing a node's return value into the state keeps the messages
    already there as a prefix; so does a whole run of any graph from any
    node; and the sequence [run_agent] returns has the caller's input
    message, unchanged, at index 0. *)
Theorem messages_append_only :
  (forall st u, messages st `prefix_of` messages (apply_update st u))
  /\ (forall (g : @StateGraph World GenErr) fuel cur st s st' s',
        run_from g fuel cur st s = (inr st', s') ->
        messages st `prefix_of` messages st')
  /\ (forall q ua s msgs s',
        run q ua s = (inr msgs, s') ->
        msgs !! 0 = Some (HumanMessage (input_content q ua))
        /\ messages (run_agent_inputs q ua) `prefix_of` msgs).
Proof.
  split; [exact apply_update_prefix|]. split; [exact run_from_prefix|].
  intros q ua s msgs s' Hrun.
  rewrite run_agent_outcome in Hrun. cbv zeta in Hrun.
  rewrite run_agent_inputs_messages.
  destruct (question_generator _ _) as [[e|qd] w1]; [discriminate|].
  destruct (report_generator _ _) as [[e|r] w2]; [discriminate|].
  inversion Hrun; subst. split; [reflexivity|].
  exists (clarify_messages qd ++ [HumanMessage (report_text r)]). reflexivity.
Qed.

End WorkflowFacts.

(** ** The workflow on a concrete service *)

(** C1 at a concrete input: the hypotheses of [run_agent_clarify_messages]
    hold for the demo service. *)
Lemma run_agent_clarify_messages_witness :
  exists rest s',
    run_agent Demo.question_generator Demo.report_generator Demo.query "" Demo.env0 =
      (inr (HumanMessage Demo.query ::
            question_messages (probing_questions Demo.questions) ++
            HumanMessage instruction_text :: rest), s')
    /\ length (question_messages (probing_questions Demo.questions))
       = length (probing_questions Demo.questions)
    /\ String.prefix "Please answer the questions" instruction_text = true.
Proof.
  apply (run_agent_clarify_messages Demo.question_generator Demo.report_generator
           Demo.query Demo.env0 Demo.questions 1 Demo.report 2); reflexivity.
Defined.

(** C1 as stated fails: with three questions returned, the sequence has six
    messages, not four; the query is still at index 0 and the last message
    is not the instruction. *)
Lemma run_agent_clarify_length_counterexample :
  exists msgs s',
    run_agent Demo.question_generator Demo.report_generator Demo.query "" Demo.env0
      = (inr msgs, s')
    /\ length (probing_questions Demo.questions) = 3
    /\ length msgs <> 3 + 1
    /\ msgs !! 0 = Some (HumanMessage Demo.query)
    /\ last msgs <> Some (HumanMessage instruction_text).
Proof.
  eexists. eexists. split; [vm_compute; reflexivity|].
  split; [reflexivity|]. split; [cbn; lia|]. split; [reflexivity|].
  cbn. discriminate.
Qed.

(** C2 at a concrete input. *)
Lemma run_agent_report_messages_witness :
  exists mid s',
    run_agent Demo.question_generator Demo.report_generator
        Demo.query Demo.answers Demo.env0 =
      (inr (HumanMessage (full_context Demo.query Demo.answers) :: mid ++
            [HumanMessage (report_text Demo.report)]), s')
    /\ last (HumanMessage (full_context Demo.query Demo.answers) :: mid ++
             [HumanMessage (report_text Demo.report)])
       = Some (HumanMessage (report_text Demo.report)).
Proof.
  apply (run_agent_report_messages Demo.question_generator Demo.report_generator
           Demo.query Demo.answers Demo.env0 Demo.questions 1 Demo.report 2);
    [discriminate | reflexivity | reflexivity].
Defined.

(** C2 as stated fails: the sequence returned for non-empty answers has six
    messages, not one. *)
Lemma run_agent_report_length_counterexample :
  exists msgs s',
    run_agent Demo.question_generator Demo.report_generator
        Demo.query Demo.answers Demo.env0 = (inr msgs, s')
    /\ Demo.query <> "" /\ Demo.answers <> ""
    /\ length msgs <> 1.
Proof.
  eexists. eexists. split; [vm_compute; reflexivity|].
  split; [discriminate|]. split; [discriminate|]. cbn. lia.
Qed.

(** C3, evaluated at the inputs of the end-to-end scenario: the call
    without answers and the call with answers each run [start_interview]
    and then [generate_report], and each call the generation service
    twice, where the claim has one node and one call per invocation. *)
Theorem run_agent_runs_both_nodes :
  let first_call :=
    run_agent Demo.question_generator Demo.report_generator Demo.query "" Demo.env0 in
  let second_call :=
    run_agent Demo.question_generator Demo.report_generator
      Demo.query Demo.answers Demo.env0 in
  nodes_run (trace (snd first_call)) = ["start_interview"; "generate_report"]
  /\ generation_calls (trace (snd first_call)) = 2
  /\ world (snd first_call) = 2
  /\ nodes_run (trace (snd second_call)) = ["start_interview"; "generate_report"]
  /\ generation_calls (trace (snd second_call)) = 2
  /\ world (snd second_call) = 2.
Proof. vm_compute. repeat split. Qed.



(** C5, evaluated at the query of the end-to-end scenario, without answers
    and with answers of three spaces: the input message is the query on
    the first call and the combined text on the second, as the claim has
    it, but neither call takes a path of its own: both run
    [start_interview] and then [generate_report], so the call without
    answers makes the report call and the call with answers makes the
    question call, on the prompt built from the combined text. *)
Theorem run_agent_branches_run_both_nodes :
  let combined :=
    "Initial Query: " +:+ Demo.query +:+ newline +:+ newline
      +:+ "User's Answers:" +:+ newline +:+ "   " in
  let first_call :=
    run_agent Demo.question_generator Demo.report_generator Demo.query "" Demo.env0 in
  let blank_call :=
    run_agent Demo.question_generator Demo.report_generator
      Demo.query "   " Demo.env0 in
  (exists rest, fst first_call = inr (HumanMessage Demo.query :: rest))
  /\ (exists rest, fst blank_call = inr (HumanMessage combined :: rest))
  /\ nodes_run (trace (snd first_call)) = ["start_interview"; "generate_report"]
  /\ trace (snd first_call) !! 3 =
       Some (GenerationCall ReportSchema
               (report_prompt
                  (conversation_history
                     (HumanMessage Demo.query :: clarify_messages Demo.questions))))
  /\ nodes_run (trace (snd blank_call)) = ["start_interview"; "generate_report"]
  /\ trace (snd blank_call) !! 1 =
       Some (GenerationCall QueryDetailsSchema (start_prompt combined)).
Proof.
  cbv zeta. split; [|split; [|split; [|split; [|split]]]].
  - eexists. vm_compute. reflexivity.
  - eexists. vm_compute. reflexivity.
  - vm_compute. reflexivity.
  - vm_compute. reflexivity.
  - vm_compute. reflexivity.
  - vm_compute. reflexivity.
Qed.

(** C6 at concrete inputs: a service whose first call fails, and one whose
    second call fails. *)
Lemma run_agent_propagates_generation_error_witness :
  fst (run_agent Demo.failing_question_generator Demo.report_generator
         Demo.query "" Demo.env0)
    = inl (GenerationError "503 Service Unavailable")
  /\ fst (run_agent Demo.question_generator Demo.failing_report_generator
            Demo.query Demo.answers Demo.env0)
      = inl (GenerationError "deadline exceeded").
Proof.
  split.
  - apply (run_agent_propagates_generation_error
             Demo.failing_question_generator Demo.report_generator
             Demo.query "" Demo.env0 "503 Service Unavailable").
    left. exists 1. reflexivity.
  - apply (run_agent_propagates_generation_error
             Demo.question_generator Demo.failing_report_generator
             Demo.query Demo.answers Demo.env0 "deadline exceeded").
    right. exists Demo.questions, 1, 2. split; reflexivity.
Defined.

(** C7, evaluated at the inputs of the end-to-end scenario: the call with
    answers starts with turn 2 and its final state has turn 1, where the
    claim has 2. *)
Theorem report_invocation_final_turn :
  turn (run_agent_inputs Demo.query Demo.answers) = 2%Z
  /\ exists st s',
      run_agent_state Demo.question_generator Demo.report_generator
        Demo.query Demo.answers Demo.env0 = (inr st, s')
      /\ turn st = 1%Z.
Proof.
  split; [reflexivity|]. eexists. eexists. split; [vm_compute; reflexivity|].
  reflexivity.
Qed.

(** C8, evaluated at the inputs of the end-to-end scenario: on the call
    with answers the prompt of the report call is built from the
    newline-joined lines of a history of five messages, where the claim
    has one. *)
Theorem report_invocation_transcript :
  last (trace (snd (run_agent Demo.question_generator Demo.report_generator
                      Demo.query Demo.answers Demo.env0)))
    = Some (GenerationCall ReportSchema
              (report_prompt (join newline (map transcript_line Demo.report_history))))
  /\ length Demo.report_history = 5.
Proof. split; [vm_compute; reflexivity | reflexivity]. Qed.

(** C9 at a concrete input: the empty environment. *)
Lemma missing_api_key_fails_at_import_witness :
  @import_tool string []
    = inl (ValueError "GOOGLE_API_KEY environment variable not set.")
  /\ (forall env' m q ua s msg,
        @import_tool string env' = inr m ->
        fst (run_agent Demo.question_generator Demo.report_generator q ua s)
          <> inl (ValueError msg)).
Proof.
  apply (missing_api_key_fails_at_import
           Demo.question_generator Demo.report_generator []).
  reflexivity.
Defined.

(** C10 at a concrete input: the sequence returned for the demo query. *)
Lemma messages_append_only_witness :
  (HumanMessage Demo.query
     :: clarify_messages Demo.questions ++ [HumanMessage (report_text Demo.report)])
    !! 0 = Some (HumanMessage (input_content Demo.query ""))
  /\ messages (run_agent_inputs Demo.query "") `prefix_of`
       (HumanMessage Demo.query
          :: clarify_messages Demo.questions ++ [HumanMessage (report_text Demo.report)]).
Proof.
  refine (proj2 (proj2 (messages_append_only
                          Demo.question_generator Demo.report_generator))
            Demo.query "" Demo.env0 _ _ _).
  vm_compute. reflexivity.
Defined.

(** ** Facts about the string operations *)

Lemma append_nil (t : string) : "" +:+ t = t.
Proof. reflexivity. Qed.

Lemma append_cons c (s t : string) : String c s +:+ t = String c (s +:+ t).
Proof. reflexivity. Qed.

Lemma length_append (s t : string) :
  String.length (s +:+ t) = String.length s + String.length t.
Proof.
  induction s as [|c s IH]; [done|].
  rewrite append_cons. cbn. by rewrite IH.
Qed.

Lemma append_assoc (s t u : string) : (s +:+ t) +:+ u = s +:+ t +:+ u.
Proof.
  induction s as [|c s IH]; [done|].
  rewrite !append_cons. by rewrite IH.
Qed.

Lemma len_append (s t : string) : len (s +:+ t) = (len s + len t)%Z.
Proof. unfold len. rewrite length_append. lia. Qed.

Lemma lstrip_length (s : string) : String.length (lstrip s) <= String.length s.
Proof.
  induction s as [|c s IH]; cbn; [done|].
  destruct (py_isspace c); cbn; lia.
Qed.

Lemma rstrip_length (s : string) : String.length (rstrip s) <= String.length s.
Proof.
  induction s as [|c s IH]; cbn; [done|].
  destruct (rstrip s); [destruct (py_isspace c)|]; cbn in *; lia.
Qed.

Lemma strip_length (s : string) : String.length (strip s) <= String.length s.
Proof.
  unfold strip. etrans; [apply rstrip_length | apply lstrip_length].
Qed.

Lemma lstrip_starts_clean s : starts_clean (lstrip s).
Proof.
  induction s as [|c s IH]; cbn; [done|].
  destruct (py_isspace c) eqn:Hc; [done | cbn; done].
Qed.

Lemma lstrip_clean s : starts_clean s -> lstrip s = s.
Proof. destruct s as [|c s]; cbn; [done|]. by intros ->. Qed.

Lemma rstrip_starts_clean s : starts_clean s -> starts_clean (rstrip s).
Proof.
  destruct s as [|c s]; cbn; [done|]. intros Hc.
  destruct (rstrip s); [rewrite Hc|]; cbn; done.
Qed.

Lemma rstrip_idemp s : rstrip (rstrip s) = rstrip s.
Proof.
  induction s as [|c s IH]; cbn; [done|].
  destruct (rstrip s) as [|d t] eqn:Hr.
  - destruct (py_isspace c) eqn:Hc; cbn; [done | by rewrite Hc].
  - cbn. cbn in IH. destruct (rstrip t) as [|d' t'] eqn:Hr'.
    + destruct (py_isspace d); [discriminate|]. by rewrite IH.
    + by rewrite IH.
Qed.

Lemma strip_idemp s : strip (strip s) = strip s.
Proof.
  unfold strip.
  rewrite (lstrip_clean (rstrip (lstrip s))).
  - apply rstrip_idemp.
  - apply rstrip_starts_clean, lstrip_starts_clean.
Qed.

(** ** Decimal numerals have no colon *)

Lemma pretty_N_char_no_colon x : pretty_N_char x <> ":"%char.
Proof.
  unfold pretty_N_char. repeat case_match; discriminate.
Qed.

Lemma pretty_N_go_no_colon x : forall s, no_colon s -> no_colon (pretty_N_go x s).
Proof.
  induction (N.lt_wf_0 x) as [x _ IH]; intros s Hs.
  destruct (decide (x = 0)%N) as [->|Hx].
  - by rewrite pretty_N_go_0.
  - rewrite pretty_N_go_step by lia. apply IH.
    + apply N.div_lt; lia.
    + split; [apply pretty_N_char_no_colon | done].
Qed.

Lemma pretty_nat_no_colon (n : nat) : no_colon (pretty n).
Proof.
  unfold pretty, pretty_nat, pretty, pretty_N.
  case_decide; [cbn; split; [discriminate|done]|].
  by apply pretty_N_go_no_colon.
Qed.

(** ** The first occurrence of a separator *)

Lemma prefix_cons_ne a s b t :
  a <> b -> String.prefix (String a s) (String b t) = false.
Proof.
  intros Hne.
  change (String.prefix (String a s) (String b t))
    with (if Ascii.ascii_dec a b then String.prefix s t else false).
  by destruct (Ascii.ascii_dec a b).
Qed.

Lemma prefix_append p s : String.prefix p (p +:+ s) = true.
Proof.
  induction p as [|c p IH]; [by destruct s|].
  rewrite append_cons.
  change (String.prefix (String c p) (String c (p +:+ s)))
    with (if Ascii.ascii_dec c c then String.prefix p (p +:+ s) else false).
  by destruct (Ascii.ascii_dec c c).
Qed.

Lemma string_drop_append p s : string_drop (String.length p) (p +:+ s) = s.
Proof. induction p as [|c p IH]; [by destruct s | exact IH]. Qed.

Lemma after_first_unfold sep s :
  after_first sep s =
  if String.prefix sep s then Some (string_drop (String.length sep) s)
  else match s with
       | "" => None
       | String _ s' => after_first sep s'
       end.
Proof. by destruct s. Qed.

Lemma after_first_here sep s : after_first sep (sep +:+ s) = Some s.
Proof.
  by rewrite after_first_unfold, prefix_append, string_drop_append.
Qed.

Lemma after_first_cons sep c s :
  after_first sep (String c s) =
  if String.prefix sep (String c s)
  then Some (string_drop (String.length sep) (String c s))
  else after_first sep s.
Proof. reflexivity. Qed.

Lemma after_first_skip p rest :
  no_colon p -> after_first ": " (p +:+ rest) = after_first ": " rest.
Proof.
  induction p as [|c p IH]; [done|]. intros [Hc Hp].
  rewrite append_cons, after_first_cons, prefix_cons_ne by done.
  by apply IH.
Qed.

Lemma after_first_question_text i q :
  after_first ": " (question_text i q) = Some q.
Proof.
  unfold question_text.
  rewrite after_first_skip by (cbn; repeat split; discriminate).
  rewrite after_first_skip by apply pretty_nat_no_colon.
  apply after_first_here.
Qed.

Lemma prefix_question_text i q :
  String.prefix "Question" (question_text i q) = true.
Proof. reflexivity. Qed.

(** ** Edge behaviour of the workflow *)

Section ToolFacts.

Context {World GenErr : Type}.
Variable question_generator : string -> World -> (GenErr + QueryDetails) * World.
Variable report_generator : string -> World -> (GenErr + Report) * World.

Abbreviation agent := (legal_agent question_generator report_generator).
Abbreviation run := (run_agent question_generator report_generator).

(** An invocation of the compiled graph on a state without messages
    raises [IndexError] in [start_node] (line 35): [start_interview] is the
    only node run, the generation service is not called and the outside
    world is left as it was. *)
Theorem invoke_empty_history inputs s :
  messages inputs = [] ->
  invoke agent inputs s =
    (inl IndexError,
     {| world := world s; trace := trace s ++ [NodeRun "start_interview"] |}).
Proof.
  intros Hm. rewrite invoke_legal_agent. cbv zeta.
  unfold bind, log, start_node. cbn. rewrite Hm. reflexivity.
Qed.

(** [run_agent] fails only when the generation client does: the error it
    ends with is one the client raised, never an [IndexError], a
    [ValueError] or a [GraphRecursionError], and by then the invocation
    has made one or two calls to the client. *)
Theorem run_agent_only_generation_errors q ua s e :
  fst (run q ua s) = inl e ->
  exists g, e = GenerationError g
    /\ 1 <= generation_calls (drop (length (trace s)) (trace (snd (run q ua s)))) <= 2.
Proof.
  rewrite run_agent_outcome. cbv zeta.
  destruct (question_generator _ _) as [[g|qd] w1].
  - cbn. intros [= <-]. exists g. split; [done|].
    rewrite drop_app_length. cbn. lia.
  - destruct (report_generator _ _) as [[g|r] w2]; [|discriminate].
    cbn. intros [= <-]. exists g. split; [done|].
    rewrite drop_app_length. cbn. lia.
Qed.

(** Every invocation of [run_agent], on either branch, starts with
    [start_interview] and the call for the questions, on the prompt built
    from the input message; it makes one call to the generation service
    when that call fails and two otherwise, never none and never more;
    and an invocation that returns has run both nodes. *)
Theorem run_agent_generation_calls q ua s :
  exists tr,
    trace (snd (run q ua s)) = trace s ++ tr
    /\ head tr = Some (NodeRun "start_interview")
    /\ tr !! 1 = Some (GenerationCall QueryDetailsSchema
                         (start_prompt (input_content q ua)))
    /\ generation_calls tr =
         match question_generator (start_prompt (input_content q ua)) (world s) with
         | (inl _, _) => 1
         | (inr _, _) => 2
         end
    /\ (forall msgs, fst (run q ua s) = inr msgs ->
        nodes_run tr = ["start_interview"; "generate_report"]
        /\ generation_calls tr = 2).
Proof.
  rewrite run_agent_outcome. cbv zeta.
  destruct (question_generator _ _) as [[g|qd] w1].
  - eexists. split; [reflexivity|]. repeat split; try done.
  - destruct (report_generator _ _) as [[g|r] w2];
      (eexists; split; [reflexivity|]; repeat split; done).
Qed.

End ToolFacts.

(** Importing the module succeeds exactly when [GOOGLE_API_KEY] is set
    to a non-empty value, and the key the client is built with is that
    value: a key set to the empty string is refused like a missing one. *)
Theorem import_tool_succeeds_iff {E} env (m : ToolModule) :
  @import_tool E env = inr m <->
  getenv env "GOOGLE_API_KEY" = Some (api_key m) /\ api_key m <> "".
Proof.
  unfold import_tool. destruct m as [k]. cbn.
  destruct (getenv env "GOOGLE_API_KEY") as [[|c v]|]; split.
  - discriminate.
  - intros [[= <-] Hne]. done.
  - intros [= <-]. done.
  - intros [[= <-] _]. done.
  - discriminate.
  - intros [[=] _].
Qed.

Lemma join_app sep l1 l2 :
  l1 <> [] -> l2 <> [] ->
  join sep (l1 ++ l2) = join sep l1 +:+ sep +:+ join sep l2.
Proof.
  intros H1 H2. induction l1 as [|p [|p' l1] IH]; [done| |].
  - destruct l2; [done|]. reflexivity.
  - change (join sep ((p :: p' :: l1) ++ l2))
      with (p +:+ sep +:+ join sep ((p' :: l1) ++ l2)).
    rewrite IH by done.
    change (join sep (p :: p' :: l1)) with (p +:+ sep +:+ join sep (p' :: l1)).
    by rewrite !append_assoc.
Qed.

(** The transcript [report_node] builds for a history made of two
    non-empty parts is the transcript of the first part, a line feed, and
    the transcript of the second. *)
Theorem conversation_history_app (h1 h2 : list BaseMessage) :
  h1 <> [] -> h2 <> [] ->
  conversation_history (h1 ++ h2) =
  conversation_history h1 +:+ newline +:+ conversation_history h2.
Proof.
  intros H1 H2. unfold conversation_history. rewrite map_app.
  apply join_app; by destruct h1, h2.
Qed.

(** ** The HTTP layer *)

Lemma strip_nonempty_nonempty s : strip s <> "" -> s <> "".
Proof. intros H ->. by apply H. Qed.

Lemma eqb_empty_false s : s <> "" -> String.eqb s "" = false.
Proof. intros H. by destruct (String.eqb_spec s ""). Qed.

(** What a field accepts, for either validator. *)
Lemma field_query_accepts lo hi raw v :
  Api.field lo hi Api.validate_query raw = inr v ->
  v = strip raw /\ v <> "" /\ (lo <= len raw <= hi)%Z.
Proof.
  unfold Api.field, Api.constrained, Api.validate_query.
  destruct (len raw <? lo)%Z eqn:Hlo; [discriminate|].
  destruct (hi <? len raw)%Z eqn:Hhi; [discriminate|].
  destruct (String.eqb_spec (strip raw) "") as [|Hne]; [discriminate|].
  intros [= <-]. split; [done|]. split; [done|]. lia.
Qed.

Lemma field_fields_accepts lo hi raw v :
  Api.field lo hi Api.validate_fields raw = inr v ->
  v = strip raw /\ v <> "" /\ (lo <= len raw <= hi)%Z.
Proof.
  unfold Api.field, Api.constrained, Api.validate_fields.
  destruct (len raw <? lo)%Z eqn:Hlo; [discriminate|].
  destruct (hi <? len raw)%Z eqn:Hhi; [discriminate|].
  destruct (String.eqb_spec (strip raw) "") as [|Hne]; [discriminate|].
  intros [= <-]. split; [done|]. split; [done|]. lia.
Qed.

Lemma len_strip_bounds raw :
  strip raw <> "" -> (1 <= len (strip raw) <= len raw)%Z.
Proof.
  intros Hne. pose proof (strip_length raw). unfold len.
  destruct (strip raw); [done|]. cbn in *. lia.
Qed.

(** A query [LegalQuery] accepts: the submitted text has between 10 and
    5000 characters and is not blank; the value kept is the text trimmed
    at both ends, which is non-empty, is left unchanged by trimming again,
    and may be shorter than 10 characters, the length bounds being checked
    before the trimming. *)
Theorem make_LegalQuery_accepts raw q :
  Api.make_LegalQuery raw = inr q ->
  Api.query q = strip raw
  /\ Api.query q <> ""
  /\ strip (Api.query q) = Api.query q
  /\ (10 <= len raw <= 5000)%Z
  /\ (1 <= len (Api.query q) <= len raw)%Z.
Proof.
  unfold Api.make_LegalQuery.
  destruct (Api.field _ _ _ _) as [e|v] eqn:Hf; [discriminate|].
  intros [= <-]. cbn.
  apply field_query_accepts in Hf as (-> & Hne & Hlen).
  split; [done|]. split; [done|]. split; [apply strip_idemp|].
  split; [done|]. by apply len_strip_bounds.
Qed.

Section ApiFacts.

Context {World GenErr : Type}.
Variable question_generator : string -> World -> (GenErr + QueryDetails) * World.
Variable report_generator : string -> World -> (GenErr + Report) * World.
Variable str_exception : Exception GenErr -> string.
Variable str_http : Api.HTTPException -> string.
Variable now_isoformat : World -> string.

Abbreviation run := (run_agent question_generator report_generator).
Abbreviation ask :=
  (Api.ask_legal_question question_generator report_generator str_exception str_http).
Abbreviation generate :=
  (Api.generate_legal_report question_generator report_generator
     str_exception str_http now_isoformat).

(** Answers [UserAnswers] accepts are trimmed and non-empty, so the
    report endpoint's call of [run_agent] always takes the branch for
    non-empty answers: its input message is built from the trimmed query
    and the trimmed answers, with turn 2. *)
Theorem validated_answers_take_report_branch raw_q raw_a a :
  Api.make_UserAnswers raw_q raw_a = inr a ->
  Api.answers a <> ""
  /\ input_content (Api.initial_query a) (Api.answers a)
     = full_context (strip raw_q) (strip raw_a)
  /\ run (Api.initial_query a) (Api.answers a) =
     bind (invoke (legal_agent question_generator report_generator)
             {| messages :=
                  [HumanMessage (full_context (strip raw_q) (strip raw_a))];
                turn := 2 |})
          (fun result => ret (messages result)).
Proof.
  unfold Api.make_UserAnswers.
  destruct (Api.field 10 5000 _ raw_q) as [e|vq] eqn:Hq;
    destruct (Api.field 10 10000 _ raw_a) as [e'|va] eqn:Ha; try discriminate.
  intros [= <-]. cbn.
  apply field_fields_accepts in Hq as (-> & _ & _).
  apply field_fields_accepts in Ha as (-> & Hne & _).
  split; [done|].
  unfold input_content, run_agent. rewrite (eqb_empty_false _ Hne). done.
Qed.

(** The questions the loop collects from the numbered messages. *)
Lemma extract_numbered qs : forall k acc instr,
  fold_left Api.extract_step
    (imap (fun i q => HumanMessage (question_text (k + i) q)) qs) (acc, instr)
  = (acc ++ qs, instr).
Proof.
  induction qs as [|q qs IH]; intros k acc instr; cbn.
  - by rewrite app_nil_r.
  - rewrite prefix_question_text, after_first_question_text.
    rewrite (imap_ext _ (fun i q => HumanMessage (question_text (S k + i) q))).
    + rewrite IH. by rewrite <- app_assoc.
    + intros i x _. cbn. do 2 f_equal. lia.
Qed.

Lemma extract_question_messages qs acc instr :
  fold_left Api.extract_step (question_messages qs) (acc, instr)
  = (acc ++ qs, instr).
Proof. apply (extract_numbered qs 0). Qed.

(** One round of the loop of [ask_legal_question] on a numbered question
    message gives back the client's question, for every index and every
    question text, even one holding a colon and a space of its own. *)
Theorem extract_step_recovers_question acc instr i q :
  Api.extract_step (acc, instr) (HumanMessage (question_text i q))
  = (acc ++ [q], instr).
Proof.
  unfold Api.extract_step. cbn [content HumanMessage].
  by rewrite prefix_question_text, after_first_question_text.
Qed.

Lemma extract_other acc instr c :
  String.prefix "Question" c = false ->
  contains "Please answer the questions" c = false ->
  Api.extract_step (acc, instr) (HumanMessage c) = (acc, instr).
Proof. intros H1 H2. unfold Api.extract_step. cbn. by rewrite H1, H2. Qed.

Lemma extract_instruction acc instr :
  Api.extract_step (acc, instr) (HumanMessage instruction_text)
  = (acc, instruction_text).
Proof. reflexivity. Qed.

(** The questions collected only grow. *)
Lemma extract_grows msgs : forall acc instr,
  exists more instr',
    fold_left Api.extract_step msgs (acc, instr) = (acc ++ more, instr').
Proof.
  induction msgs as [|m msgs IH]; intros acc instr; cbn.
  - exists [], instr. by rewrite app_nil_r.
  - destruct (String.prefix "Question" (content m)).
    + destruct (IH (acc ++ [match after_first ": " (content m) with
                            | Some t => t | None => content m end]) instr)
        as (more & instr' & ->).
      eexists _, instr'. by rewrite <- app_assoc.
    + destruct (contains "Please answer the questions" (content m)); apply IH.
Qed.

(** What the loop of [ask_legal_question] collects from the sequence
    [run_agent] returns. *)
Lemma extract_returned c qd r :
  fold_left Api.extract_step
    (([HumanMessage c] ++ clarify_messages qd) ++ [HumanMessage (report_text r)])
    ([], "")
  = Api.extract_step
      (fst (Api.extract_step ([], "") (HumanMessage c)) ++ probing_questions qd,
       instruction_text)
      (HumanMessage (report_text r)).
Proof.
  unfold clarify_messages. rewrite !fold_left_app. cbn [fold_left].
  destruct (Api.extract_step ([], "") (HumanMessage c)) as [acc instr].
  rewrite extract_question_messages. reflexivity.
Qed.

(** When the generation client answers with at least one question, and
    neither the user's query nor the report text starts with [Question] or
    contains [Please answer the questions], [ask_legal_question] returns
    exactly the client's questions, in the client's order and without
    their numbered labels, together with the instruction text. *)
Theorem ask_returns_client_questions q s qd w1 r w2 :
  question_generator (start_prompt (Api.query q)) (world s) = (inr qd, w1) ->
  report_generator
    (report_prompt
       (conversation_history ([HumanMessage (Api.query q)] ++ clarify_messages qd)))
    w1 = (inr r, w2) ->
  String.prefix "Question" (Api.query q) = false ->
  contains "Please answer the questions" (Api.query q) = false ->
  String.prefix "Question" (report_text r) = false ->
  contains "Please answer the questions" (report_text r) = false ->
  probing_questions qd <> [] ->
  fst (ask q s) =
    inr {| Api.questions := probing_questions qd;
           Api.message := instruction_text |}.
Proof.
  intros Hq Hr Hq1 Hq2 Hr1 Hr2 Hne. unfold Api.ask_legal_question.
  rewrite run_agent_outcome. cbv zeta.
  change (input_content (Api.query q) "") with (Api.query q).
  rewrite Hq, Hr. rewrite extract_returned.
  rewrite !extract_other by done. cbn [fst app].
  destruct (probing_questions qd); [done|]. reflexivity.
Qed.

(** A query that itself starts with [Question] is returned by
    [ask_legal_question] as the first of the questions (cut after its
    first colon and space, when it has one), ahead of the client's
    questions: the loop of lines 191-198 reads the input message that the
    reducer keeps at the head of the sequence. *)
Theorem ask_returns_query_as_question q s qd w1 r w2 :
  question_generator (start_prompt (Api.query q)) (world s) = (inr qd, w1) ->
  report_generator
    (report_prompt
       (conversation_history ([HumanMessage (Api.query q)] ++ clarify_messages qd)))
    w1 = (inr r, w2) ->
  String.prefix "Question" (Api.query q) = true ->
  exists resp rest,
    fst (ask q s) = inr resp
    /\ Api.questions resp =
         match after_first ": " (Api.query q) with
         | Some t => t
         | None => Api.query q
         end :: probing_questions qd ++ rest.
Proof.
  intros Hq Hr Hq1. unfold Api.ask_legal_question.
  rewrite run_agent_outcome. cbv zeta.
  change (input_content (Api.query q) "") with (Api.query q).
  rewrite Hq, Hr. rewrite extract_returned.
  unfold Api.extract_step at 2. cbn [content HumanMessage]. rewrite Hq1.
  cbn [fst app].
  set (leaked := match after_first ": " (Api.query q) with
                 | Some t => t | None => Api.query q end).
  destruct (extract_grows [HumanMessage (report_text r)]
              (leaked :: probing_questions qd) instruction_text)
    as (more & instr' & Hstep).
  cbn [fold_left] in Hstep. rewrite Hstep. cbn [app].
  eexists _, more. split; reflexivity.
Qed.

(** When the generation client returns an empty list of questions and
    neither the query nor the report text starts with [Question],
    [ask_legal_question] fails with status 500, the [HTTPException] of line
    201 being caught and wrapped by the handler of line 214; both
    generation calls have been made by then. *)
Theorem ask_without_questions_is_500 q s qd w1 r w2 :
  question_generator (start_prompt (Api.query q)) (world s) = (inr qd, w1) ->
  report_generator
    (report_prompt
       (conversation_history ([HumanMessage (Api.query q)] ++ clarify_messages qd)))
    w1 = (inr r, w2) ->
  String.prefix "Question" (Api.query q) = false ->
  String.prefix "Question" (report_text r) = false ->
  probing_questions qd = [] ->
  fst (ask q s) =
    inl {| Api.status_code := 500;
           Api.detail :=
             "Failed to process legal query: " +:+
             str_http {| Api.status_code := 500;
                         Api.detail := "Failed to generate questions" |} |}
  /\ generation_calls (drop (length (trace s)) (trace (snd (ask q s)))) = 2.
Proof.
  intros Hq Hr Hq1 Hr1 Hnil. unfold Api.ask_legal_question.
  rewrite run_agent_outcome. cbv zeta.
  change (input_content (Api.query q) "") with (Api.query q).
  rewrite Hq, Hr. rewrite extract_returned. rewrite Hnil.
  unfold Api.extract_step. cbn [content HumanMessage]. rewrite Hq1.
  destruct (contains _ (Api.query q)); cbn [fst app]; rewrite Hr1;
    destruct (contains _ (report_text r)); cbn;
    (split; [reflexivity | by rewrite drop_app_length]).
Qed.

(** *** The report endpoint *)

Lemma first_long_nonempty_or msgs :
  Api.first_long msgs = "" \/
  (Api.first_long msgs <> "" /\ (100 < len (Api.first_long msgs))%Z
   /\ exists m, m ∈ msgs /\ Api.first_long msgs = content m).
Proof.
  induction msgs as [|m msgs IH]; cbn; [by left|].
  destruct (String.eqb_spec (content m) "") as [|Hne]; cbn.
  - destruct IH as [?|(? & ? & m' & ? & ?)]; [by left|].
    right. split; [done|]. split; [done|]. exists m'. split; [by right | done].
  - destruct (100 <? len (content m))%Z eqn:Hlen.
    + right. split; [done|]. split; [lia|]. exists m. split; [by left | done].
    + destruct IH as [?|(? & ? & m' & ? & ?)]; [by left|].
      right. split; [done|]. split; [done|]. exists m'. split; [by right | done].
Qed.

Lemma first_long_app l1 l2 :
  Api.first_long (l1 ++ l2) =
  if String.eqb (Api.first_long l1) "" then Api.first_long l2
  else Api.first_long l1.
Proof.
  induction l1 as [|m l1 IH]; cbn; [done|].
  destruct (String.eqb_spec (content m) "") as [|Hne]; cbn; [done|].
  destruct (100 <? len (content m))%Z; [|done].
  by rewrite (eqb_empty_false _ Hne).
Qed.

(** The messages before the report always hold one that is long enough:
    the instruction message. *)
Lemma first_long_before_report c qd :
  Api.first_long ([HumanMessage c] ++ clarify_messages qd) <> "".
Proof.
  unfold clarify_messages. rewrite app_assoc, first_long_app.
  destruct (String.eqb_spec (Api.first_long ([HumanMessage c] ++
              question_messages (probing_questions qd))) ""); [|done].
  discriminate.
Qed.

(** What [generate_legal_report] returns once [run_agent] returned. *)
Lemma generate_outcome a s qd w1 r w2 :
  let c := input_content (Api.initial_query a) (Api.answers a) in
  let before := [HumanMessage c] ++ clarify_messages qd in
  question_generator (start_prompt c) (world s) = (inr qd, w1) ->
  report_generator (report_prompt (conversation_history before)) w1 = (inr r, w2) ->
  fst (generate a s) =
    inr {| Api.report := Api.first_long before;
           Api.timestamp := now_isoformat w2 |}.
Proof.
  intros c before Hq Hr. unfold Api.generate_legal_report.
  rewrite run_agent_outcome. cbv zeta. fold c. rewrite Hq. fold before. rewrite Hr.
  rewrite first_long_app.
  pose proof (first_long_before_report c qd) as Hne. fold before in Hne.
  rewrite (eqb_empty_false _ Hne). rewrite (eqb_empty_false _ Hne). done.
Qed.

(** [generate_legal_report] never fails with [Failed to generate report]
    once [run_agent] returned, and the text it returns is not read from
    the report message: it is the content of the first message longer than
    100 characters among the messages that precede the report (the input
    message, the question messages and the instruction message, which is
    always long enough), whatever report the client produced. *)
Theorem generate_never_reads_report a s qd w1 r w2 :
  let c := input_content (Api.initial_query a) (Api.answers a) in
  let before := [HumanMessage c] ++ clarify_messages qd in
  question_generator (start_prompt c) (world s) = (inr qd, w1) ->
  report_generator (report_prompt (conversation_history before)) w1 = (inr r, w2) ->
  fst (generate a s) =
    inr {| Api.report := Api.first_long before;
           Api.timestamp := now_isoformat w2 |}
  /\ exists m, m ∈ before /\ Api.first_long before = content m
      /\ (100 < len (content m))%Z.
Proof.
  intros c before Hq Hr. split; [by apply (generate_outcome a s qd w1 r w2)|].
  pose proof (first_long_before_report c qd) as Hne. fold before in Hne.
  destruct (first_long_nonempty_or before) as [?|(_ & Hlen & m & Hin & Heq)]; [done|].
  exists m. split; [done|]. split; [done|]. by rewrite <- Heq.
Qed.

Lemma len_full_context q ua :
  len (full_context q ua) = (33 + len q + len ua)%Z.
Proof.
  unfold full_context. rewrite !len_append.
  change (len "Initial Query: ") with 15%Z.
  change (len newline) with 1%Z.
  change (len "User's Answers:") with 15%Z. lia.
Qed.

(** When the query and the answers have 68 characters or more between
    them, the text [generate_legal_report] returns as the report is the
    caller's own combined input,
    [Initial Query: ...\n\nUser's Answers:\n...]. *)
Theorem generate_echoes_long_input a s qd w1 r w2 :
  let c := full_context (Api.initial_query a) (Api.answers a) in
  Api.answers a <> "" ->
  (68 <= len (Api.initial_query a) + len (Api.answers a))%Z ->
  question_generator (start_prompt c) (world s) = (inr qd, w1) ->
  report_generator
    (report_prompt (conversation_history ([HumanMessage c] ++ clarify_messages qd)))
    w1 = (inr r, w2) ->
  fst (generate a s) =
    inr {| Api.report := c; Api.timestamp := now_isoformat w2 |}.
Proof.
  intros c Hne Hlen Hq Hr.
  assert (input_content (Api.initial_query a) (Api.answers a) = c) as Hc.
  { unfold input_content. by rewrite (eqb_empty_false _ Hne). }
  pose proof (generate_outcome a s qd w1 r w2) as Hgen. cbv zeta in Hgen.
  rewrite Hc in Hgen. rewrite (Hgen Hq Hr). do 2 f_equal.
  cbn [app Api.first_long content HumanMessage].
  assert ((100 <? len c)%Z = true) as ->.
  { unfold c. rewrite len_full_context. lia. }
  assert (String.eqb c "" = false) as ->; [|done].
  apply eqb_empty_false. intros Hc0.
  assert (len c = 0%Z) as Hl by (by rewrite Hc0).
  unfold c in Hl. rewrite len_full_context in Hl. unfold len in *. lia.
Qed.

End ApiFacts.

(** The startup check of [api.py] and the import of [tool.py] accept the
    same environments; an environment [validate_environment] refuses is one
    with [GOOGLE_API_KEY] missing or empty, which the import refuses too. *)
Theorem validate_environment_agrees_with_import {E} env :
  (Api.validate_environment env = inr tt <-> exists m, @import_tool E env = inr m)
  /\ (forall missing,
        Api.validate_environment env = inl missing ->
        missing = ["GOOGLE_API_KEY"]
        /\ @import_tool E env
           = inl (ValueError "GOOGLE_API_KEY environment variable not set.")).
Proof.
  unfold import_tool, Api.validate_environment, Api.required_vars, Api.is_missing.
  cbn. destruct (getenv env "GOOGLE_API_KEY") as [[|c v]|]; cbn.
  - split; [split; [discriminate | intros [m ?]; discriminate]|].
    by intros missing [= <-].
  - split; [split; eauto|]. discriminate.
  - split; [split; [discriminate | intros [m ?]; discriminate]|].
    by intros missing [= <-].
Qed.

(** ** The chat front end *)

Lemma remove_go_absent old s :
  contains old s = false -> remove_go old 0 s = s.
Proof.
  induction s as [|c s IH]; [done|]. intros H.
  change (contains old (String c s))
    with (String.prefix old (String c s) || contains old s) in H.
  apply orb_false_elim in H as [Hp Hc].
  change (remove_go old 0 (String c s))
    with (if String.prefix old (String c s)
          then remove_go old (String.length old - 1) s
          else String c (remove_go old 0 s)).
  rewrite Hp. by rewrite IH.
Qed.

Lemma remove_all_absent old s :
  contains old s = false -> remove_all old s = s.
Proof.
  intros H. unfold remove_all. destruct (String.eqb old ""); [done|].
  by apply remove_go_absent.
Qed.

Lemma remove_go_skip old p s :
  remove_go old (String.length p) (p +:+ s) = remove_go old 0 s.
Proof.
  induction p as [|c p IH]; [done|].
  rewrite append_cons. exact IH.
Qed.

Lemma remove_all_prefix c old s :
  remove_all (String c old) (String c old +:+ s) = remove_all (String c old) s.
Proof.
  unfold remove_all.
  assert (String.eqb (String c old) "" = false) as -> by reflexivity.
  pose proof (prefix_append (String c old) s) as Hp.
  rewrite append_cons in *.
  change (remove_go (String c old) 0 (String c (old +:+ s)))
    with (if String.prefix (String c old) (String c (old +:+ s))
          then remove_go (String c old) (String.length (String c old) - 1) (old +:+ s)
          else String c (remove_go (String c old) 0 (old +:+ s))).
  rewrite Hp.
  replace (String.length (String c old) - 1) with (String.length old)
    by (cbn; lia).
  apply remove_go_skip.
Qed.

Lemma strip_labels_label_free x : label_free x -> App.strip_labels x = x.
Proof.
  intros (H1 & H2 & H3 & H4). unfold App.strip_labels.
  rewrite (remove_all_absent "Question 1: " x) by done.
  rewrite (remove_all_absent "Question 2: " x) by done.
  rewrite (remove_all_absent "Question 3: " x) by done.
  by rewrite (remove_all_absent "Question 4: " x).
Qed.

Lemma contains_cons sub c s :
  contains sub (String c s) = String.prefix sub (String c s) || contains sub s.
Proof. reflexivity. Qed.

(** A label does not occur in a text that starts with another label and
    goes on with a text free of it. *)
Ltac absent_in_label H :=
  cbv [String.append]; rewrite ?contains_cons; cbn; exact H.

(** For a question in which none of the four labels occurs, the chain of
    [replace] calls of line 114 removes the label of each of the first four
    question messages and leaves the text of the question; a fifth
    question keeps its label, [Question 5: ]. *)
Theorem strip_labels_question i x :
  label_free x ->
  (i < 4 -> App.strip_labels (question_text i x) = x)
  /\ (i = 4 -> App.strip_labels (question_text i x) = question_text i x).
Proof.
  intros Hx. pose proof Hx as (H1 & H2 & H3 & H4). split.
  - intros Hi. destruct i as [|[|[|[|i]]]]; [| | | |lia].
    + change (question_text 0 x) with ("Question 1: " +:+ x).
      unfold App.strip_labels. rewrite remove_all_prefix.
      by apply strip_labels_label_free.
    + change (question_text 1 x) with ("Question 2: " +:+ x).
      unfold App.strip_labels.
      rewrite (remove_all_absent "Question 1: ") by absent_in_label H1.
      rewrite remove_all_prefix.
      rewrite (remove_all_absent "Question 2: " x) by done.
      rewrite (remove_all_absent "Question 3: " x) by done.
      by rewrite (remove_all_absent "Question 4: " x).
    + change (question_text 2 x) with ("Question 3: " +:+ x).
      unfold App.strip_labels.
      rewrite (remove_all_absent "Question 1: ") by absent_in_label H1.
      rewrite (remove_all_absent "Question 2: ") by absent_in_label H2.
      rewrite remove_all_prefix.
      rewrite (remove_all_absent "Question 3: " x) by done.
      by rewrite (remove_all_absent "Question 4: " x).
    + change (question_text 3 x) with ("Question 4: " +:+ x).
      unfold App.strip_labels.
      rewrite (remove_all_absent "Question 1: ") by absent_in_label H1.
      rewrite (remove_all_absent "Question 2: ") by absent_in_label H2.
      rewrite (remove_all_absent "Question 3: ") by absent_in_label H3.
      rewrite remove_all_prefix.
      by rewrite (remove_all_absent "Question 4: " x).
  - intros ->. change (question_text 4 x) with ("Question 5: " +:+ x).
    unfold App.strip_labels.
    rewrite (remove_all_absent "Question 1: ") by absent_in_label H1.
    rewrite (remove_all_absent "Question 2: ") by absent_in_label H2.
    rewrite (remove_all_absent "Question 3: ") by absent_in_label H3.
    by rewrite (remove_all_absent "Question 4: ") by absent_in_label H4.
Qed.

Lemma render_from acc msgs :
  fold_left App.render_step msgs acc = acc +:+ App.render_questions msgs.
Proof.
  unfold App.render_questions. revert acc.
  induction msgs as [|m msgs IH]; intros acc; cbn [fold_left].
  - induction acc as [|c acc IHacc]; [done|]. rewrite append_cons. by f_equal.
  - rewrite IH. rewrite (IH (App.render_step "" m)).
    unfold App.render_step.
    destruct (contains _ (content m)); [done|].
    rewrite append_nil. by rewrite !append_assoc.
Qed.

Lemma render_questions_app l1 l2 :
  App.render_questions (l1 ++ l2)
  = App.render_questions l1 +:+ App.render_questions l2.
Proof.
  unfold App.render_questions at 1. rewrite fold_left_app.
  fold (App.render_questions l1). apply render_from.
Qed.

(** *** Which messages the chat shows *)

Lemma pretty_N_char_not_P x : pretty_N_char x <> "P"%char.
Proof. unfold pretty_N_char. repeat case_match; discriminate. Qed.

Lemma pretty_N_go_lacks_P x : forall s, lacks "P" s -> lacks "P" (pretty_N_go x s).
Proof.
  induction (N.lt_wf_0 x) as [x _ IH]; intros s Hs.
  destruct (decide (x = 0)%N) as [->|Hx].
  - by rewrite pretty_N_go_0.
  - rewrite pretty_N_go_step by lia. apply IH.
    + apply N.div_lt; lia.
    + split; [apply pretty_N_char_not_P | done].
Qed.

Lemma pretty_nat_lacks_P (n : nat) : lacks "P" (pretty n).
Proof.
  unfold pretty, pretty_nat, pretty, pretty_N.
  case_decide; [cbn; split; [discriminate|done]|].
  by apply pretty_N_go_lacks_P.
Qed.

(** A text that starts with [c] does not begin inside a string that
    lacks [c]. *)
Lemma contains_skip c sub p x :
  lacks c p ->
  contains (String c sub) (p +:+ x) = contains (String c sub) x.
Proof.
  induction p as [|d p IH]; [done|]. intros [Hd Hp].
  rewrite append_cons, contains_cons, prefix_cons_ne by done.
  by apply IH.
Qed.

Lemma contains_append_true sub p x :
  contains sub x = true -> contains sub (p +:+ x) = true.
Proof.
  intros Hx. induction p as [|d p IH]; [done|].
  rewrite append_cons, contains_cons, IH. apply orb_true_r.
Qed.

Lemma contains_question_text_false i x :
  contains "Please answer the questions" x = false ->
  contains "Please answer the questions" (question_text i x) = false.
Proof.
  intros Hx. unfold question_text.
  rewrite contains_skip by (cbn; repeat split; discriminate).
  rewrite contains_skip by apply pretty_nat_lacks_P.
  rewrite contains_skip by (cbn; repeat split; discriminate).
  exact Hx.
Qed.

Lemma contains_question_text_true sub i x :
  contains sub x = true -> contains sub (question_text i x) = true.
Proof.
  intros Hx. unfold question_text. by do 3 apply contains_append_true.
Qed.

Lemma render_questions_cons m msgs :
  App.render_questions (m :: msgs)
  = App.render_step "" m +:+ App.render_questions msgs.
Proof. unfold App.render_questions at 1. cbn [fold_left]. apply render_from. Qed.

Lemma render_numbered qs : forall k,
  Forall (fun x => contains "Please answer the questions" x = false) qs ->
  App.render_questions
    (imap (fun i x => HumanMessage (question_text (k + i) x)) qs)
  = concat_strings
      (imap (fun i x => bullet (App.strip_labels (question_text (k + i) x))) qs).
Proof.
  induction qs as [|x qs IH]; intros k Hqs; [done|].
  apply Forall_cons in Hqs as [Hx Hqs].
  rewrite !imap_cons. rewrite render_questions_cons.
  cbn [concat_strings]. f_equal.
  - unfold App.render_step. cbn [content HumanMessage].
    by rewrite (contains_question_text_false _ _ Hx).
  - rewrite (imap_ext _ (fun i x => HumanMessage (question_text (S k + i) x)))
      by (intros i y _; cbn; by replace (k + S i) with (S k + i) by lia).
    rewrite (IH (S k) Hqs). f_equal. apply imap_ext.
    intros i y _. cbn. by replace (k + S i) with (S k + i) by lia.
Qed.

Lemma render_question_messages qs :
  Forall (fun x => contains "Please answer the questions" x = false) qs ->
  App.render_questions (question_messages qs)
  = concat_strings
      (imap (fun i x => bullet (App.strip_labels (question_text i x))) qs).
Proof. apply (render_numbered qs 0). Qed.

Section AppFacts.

Context {World GenErr : Type}.
Variable question_generator : string -> World -> (GenErr + QueryDetails) * World.
Variable report_generator : string -> World -> (GenErr + Report) * World.

(** The loop of lines 112-114 tests every message: the instruction
    message is skipped, and so is any other message whose content holds
    [Please answer the questions], a question message included.  After a
    first call in which the generation client answers, when neither the
    query, nor the report text, nor any question holds that phrase, the
    text the chat shows is one line per remaining message, each the
    content with the four labels removed: first the user's own query, then
    the question messages in order, last the generated report. *)
Theorem render_questions_shows_query_and_report q s qd w1 r w2 :
  question_generator (start_prompt q) (world s) = (inr qd, w1) ->
  report_generator
    (report_prompt (conversation_history ([HumanMessage q] ++ clarify_messages qd)))
    w1 = (inr r, w2) ->
  contains "Please answer the questions" q = false ->
  contains "Please answer the questions" (report_text r) = false ->
  Forall (fun x => contains "Please answer the questions" x = false)
    (probing_questions qd) ->
  (exists msgs,
     fst (run_agent question_generator report_generator q "" s) = inr msgs
     /\ App.render_questions msgs =
          bullet (App.strip_labels q)
          +:+ concat_strings
                (imap (fun i x => bullet (App.strip_labels (question_text i x)))
                      (probing_questions qd))
          +:+ bullet (App.strip_labels (report_text r)))
  /\ (forall full_response i x,
        contains "Please answer the questions" x = true ->
        App.render_step full_response (HumanMessage (question_text i x))
        = full_response).
Proof.
  intros Hq Hr Hcq Hcr Hqs. split.
  - rewrite run_agent_outcome. cbv zeta.
    change (input_content q "") with q. rewrite Hq, Hr.
    eexists. split; [reflexivity|].
    unfold clarify_messages. rewrite !render_questions_app.
    rewrite (render_question_messages _ Hqs).
    unfold App.render_questions. cbn [fold_left].
    unfold App.render_step. cbn [content HumanMessage].
    rewrite Hcq, Hcr.
    assert (contains "Please answer the questions" instruction_text = true)
      as -> by reflexivity.
    unfold bullet. rewrite !append_nil. by rewrite !append_assoc.
  - intros full_response i x Hx. unfold App.render_step.
    cbn [content HumanMessage].
    by rewrite (contains_question_text_true _ i x Hx).
Qed.

(** The report the chat shows, [report_messages[-1].content], is the
    report text the generation client produced, on every call that
    returns. *)
Theorem final_report_is_the_report q ua s qd w1 r w2 :
  let c := input_content q ua in
  question_generator (start_prompt c) (world s) = (inr qd, w1) ->
  report_generator
    (report_prompt (conversation_history ([HumanMessage c] ++ clarify_messages qd)))
    w1 = (inr r, w2) ->
  exists msgs,
    fst (run_agent question_generator report_generator q ua s) = inr msgs
    /\ @App.final_report GenErr msgs = inr (report_text r).
Proof.
  intros c Hq Hr. rewrite run_agent_outcome. cbv zeta. fold c.
  rewrite Hq, Hr. eexists. split; [reflexivity|].
  unfold App.final_report. by rewrite last_snoc.
Qed.

End AppFacts.

(** ** The callers on a concrete service *)

Lemma invoke_empty_history_witness :
  invoke (legal_agent Demo.question_generator Demo.report_generator)
    {| messages := []; turn := 0 |} Demo.env0 =
    (inl IndexError,
     {| world := world Demo.env0;
        trace := trace Demo.env0 ++ [NodeRun "start_interview"] |}).
Proof.
  apply (invoke_empty_history Demo.question_generator Demo.report_generator
           {| messages := []; turn := 0 |} Demo.env0).
  reflexivity.
Defined.

Lemma run_agent_only_generation_errors_witness :
  exists g,
    GenerationError "503 Service Unavailable" = GenerationError g
    /\ 1 <= generation_calls
              (drop (length (trace Demo.env0))
                 (trace (snd (run_agent Demo.failing_question_generator
                                Demo.report_generator Demo.query "" Demo.env0))))
       <= 2.
Proof.
  apply (run_agent_only_generation_errors
           Demo.failing_question_generator Demo.report_generator
           Demo.query "" Demo.env0 (GenerationError "503 Service Unavailable")).
  reflexivity.
Defined.

Lemma conversation_history_app_witness :
  conversation_history
    ([HumanMessage Demo.query] ++ clarify_messages Demo.questions) =
  conversation_history [HumanMessage Demo.query] +:+ newline
    +:+ conversation_history (clarify_messages Demo.questions).
Proof.
  apply (conversation_history_app
           [HumanMessage Demo.query] (clarify_messages Demo.questions));
    discriminate.
Defined.

(** A submitted query of 13 characters of which 7 are left. *)
Lemma make_LegalQuery_accepts_witness :
  Api.query {| Api.query := "evicted" |} = strip "   evicted   "
  /\ Api.query {| Api.query := "evicted" |} <> ""
  /\ strip (Api.query {| Api.query := "evicted" |})
     = Api.query {| Api.query := "evicted" |}
  /\ (10 <= len "   evicted   " <= 5000)%Z
  /\ (1 <= len (Api.query {| Api.query := "evicted" |}) <= len "   evicted   ")%Z.
Proof.
  apply (make_LegalQuery_accepts "   evicted   " {| Api.query := "evicted" |}).
  reflexivity.
Defined.

Lemma validated_answers_take_report_branch_witness :
  Api.answers DemoCallers.user_answers <> ""
  /\ input_content (Api.initial_query DemoCallers.user_answers)
       (Api.answers DemoCallers.user_answers)
     = full_context (strip Demo.query) (strip Demo.answers)
  /\ run_agent Demo.question_generator Demo.report_generator
       (Api.initial_query DemoCallers.user_answers)
       (Api.answers DemoCallers.user_answers) =
     bind (invoke (legal_agent Demo.question_generator Demo.report_generator)
             {| messages :=
                  [HumanMessage (full_context (strip Demo.query) (strip Demo.answers))];
                turn := 2 |})
          (fun result => ret (messages result)).
Proof.
  apply (validated_answers_take_report_branch
           Demo.question_generator Demo.report_generator
           Demo.query Demo.answers DemoCallers.user_answers).
  reflexivity.
Defined.

Lemma ask_returns_client_questions_witness :
  fst (Api.ask_legal_question Demo.question_generator Demo.report_generator
         DemoCallers.str_exception DemoCallers.str_http
         DemoCallers.legal_query Demo.env0) =
    inr {| Api.questions := probing_questions Demo.questions;
           Api.message := instruction_text |}.
Proof.
  apply (ask_returns_client_questions
           Demo.question_generator Demo.report_generator
           DemoCallers.str_exception DemoCallers.str_http
           DemoCallers.legal_query Demo.env0 Demo.questions 1 Demo.report 2);
    (reflexivity || discriminate).
Defined.

Lemma ask_returns_query_as_question_witness :
  exists resp rest,
    fst (Api.ask_legal_question Demo.question_generator Demo.report_generator
           DemoCallers.str_exception DemoCallers.str_http
           {| Api.query := DemoCallers.labelled_query |} Demo.env0) = inr resp
    /\ Api.questions resp =
         match after_first ": "
                 (Api.query {| Api.query := DemoCallers.labelled_query |}) with
         | Some t => t
         | None => Api.query {| Api.query := DemoCallers.labelled_query |}
         end :: probing_questions Demo.questions ++ rest.
Proof.
  apply (ask_returns_query_as_question
           Demo.question_generator Demo.report_generator
           DemoCallers.str_exception DemoCallers.str_http
           {| Api.query := DemoCallers.labelled_query |}
           Demo.env0 Demo.questions 1 Demo.report 2); reflexivity.
Defined.

Lemma ask_without_questions_is_500_witness :
  fst (Api.ask_legal_question DemoCallers.empty_question_generator
         Demo.report_generator DemoCallers.str_exception DemoCallers.str_http
         DemoCallers.legal_query Demo.env0) =
    inl {| Api.status_code := 500;
           Api.detail :=
             "Failed to process legal query: " +:+
             DemoCallers.str_http
               {| Api.status_code := 500;
                  Api.detail := "Failed to generate questions" |} |}
  /\ generation_calls
       (drop (length (trace Demo.env0))
          (trace (snd (Api.ask_legal_question DemoCallers.empty_question_generator
                         Demo.report_generator DemoCallers.str_exception
                         DemoCallers.str_http DemoCallers.legal_query Demo.env0))))
     = 2.
Proof.
  apply (ask_without_questions_is_500
           DemoCallers.empty_question_generator Demo.report_generator
           DemoCallers.str_exception DemoCallers.str_http
           DemoCallers.legal_query Demo.env0
           {| probing_questions := [] |} 1 Demo.report 2); reflexivity.
Defined.

Lemma generate_never_reads_report_witness :
  let c := input_content (Api.initial_query DemoCallers.user_answers)
             (Api.answers DemoCallers.user_answers) in
  let before := [HumanMessage c] ++ clarify_messages Demo.questions in
  fst (Api.generate_legal_report Demo.question_generator Demo.report_generator
         DemoCallers.str_exception DemoCallers.str_http DemoCallers.now_isoformat
         DemoCallers.user_answers Demo.env0) =
    inr {| Api.report := Api.first_long before;
           Api.timestamp := DemoCallers.now_isoformat 2 |}
  /\ exists m, m ∈ before /\ Api.first_long before = content m
      /\ (100 < len (content m))%Z.
Proof.
  apply (generate_never_reads_report
           Demo.question_generator Demo.report_generator
           DemoCallers.str_exception DemoCallers.str_http DemoCallers.now_isoformat
           DemoCallers.user_answers Demo.env0 Demo.questions 1 Demo.report 2);
    reflexivity.
Defined.

Lemma generate_echoes_long_input_witness :
  fst (Api.generate_legal_report Demo.question_generator Demo.report_generator
         DemoCallers.str_exception DemoCallers.str_http DemoCallers.now_isoformat
         DemoCallers.user_answers Demo.env0) =
    inr {| Api.report := full_context Demo.query Demo.answers;
           Api.timestamp := DemoCallers.now_isoformat 2 |}.
Proof.
  apply (generate_echoes_long_input
           Demo.question_generator Demo.report_generator
           DemoCallers.str_exception DemoCallers.str_http DemoCallers.now_isoformat
           DemoCallers.user_answers Demo.env0 Demo.questions 1 Demo.report 2);
    [discriminate | vm_compute; discriminate | reflexivity | reflexivity].
Defined.

Lemma strip_labels_question_witness :
  (1 < 4 ->
   App.strip_labels (question_text 1 "Is the landlord an individual or a company?")
   = "Is the landlord an individual or a company?")
  /\ (1 = 4 ->
      App.strip_labels (question_text 1 "Is the landlord an individual or a company?")
      = question_text 1 "Is the landlord an individual or a company?").
Proof.
  apply (strip_labels_question 1 "Is the landlord an individual or a company?").
  repeat split; reflexivity.
Defined.

Lemma render_questions_shows_query_and_report_witness :
  (exists msgs,
     fst (run_agent Demo.question_generator Demo.report_generator
            Demo.query "" Demo.env0) = inr msgs
     /\ App.render_questions msgs =
          bullet (App.strip_labels Demo.query)
          +:+ concat_strings
                (imap (fun i x => bullet (App.strip_labels (question_text i x)))
                      (probing_questions Demo.questions))
          +:+ bullet (App.strip_labels (report_text Demo.report)))
  /\ (forall full_response i x,
        contains "Please answer the questions" x = true ->
        App.render_step full_response (HumanMessage (question_text i x))
        = full_response).
Proof.
  apply (render_questions_shows_query_and_report
           Demo.question_generator Demo.report_generator
           Demo.query Demo.env0 Demo.questions 1 Demo.report 2);
    try reflexivity.
  repeat constructor.
Defined.

Lemma final_report_is_the_report_witness :
  exists msgs,
    fst (run_agent Demo.question_generator Demo.report_generator
           Demo.query Demo.answers Demo.env0) = inr msgs
    /\ @App.final_report string msgs = inr (report_text Demo.report).
Proof.
  apply (final_report_is_the_report
           Demo.question_generator Demo.report_generator
           Demo.query Demo.answers Demo.env0 Demo.questions 1 Demo.report 2);
    reflexivity.
Defined.
